(** * data_tools: the workbook loader and the sheet profiler

    A shallow embedding of [src/utils/.ipynb_checkpoints/data_tools-checkpoint.py].
    The file has two functions, [read_all_excel_sheets] and
    [df_overview]; both are thin drivers over pandas, tabulate and
    plotly.  The embedding has three layers:

    - [Py]: the part of the Python run time the two functions rely on
      (exceptions, [try]/[except], insertion-ordered dicts);
    - [Np] and [Pandas]: the numeric and tabular operations the source
      calls, on a frame stored row by row;
    - [DataTools]: the two functions, statement by statement, over a
      state that records the console, the files opened and the random
      numbers used.  *)

From Stdlib Require Import ZArith QArith Qround Qabs Lqa Lia.
From Stdlib Require Import Floats Uint63.
From stdpp Require Import base decidable strings list gmap pretty.

#[local] Set Warnings "-clear-no-such-hyp".
#[local] Open Scope string_scope.
#[local] Open Scope list_scope.

(** ** The Python run time *)

Module Py.

(** An exception object: the name of its class and the text [str(e)]
    returns.  Every error the libraries and the operating system raise
    here derives from [Exception]; interpreter signals such as
    [KeyboardInterrupt] are not part of the model. *)
Record Exception := mkException { exc_class : string; exc_str : string }.

Inductive result (A : Type) : Type :=
| Ok (a : A)
| Raise (e : Exception).
Arguments Ok {A} a.
Arguments Raise {A} e.

(** Statements run over a state [S] and either return or raise; the
    state reached at a raise is kept (what was printed stays printed). *)
Definition M (S A : Type) : Type := S -> result A * S.

Definition ret {S A} (a : A) : M S A := fun s => (Ok a, s).

Definition bind {S A B} (m : M S A) (k : A -> M S B) : M S B :=
  fun s => match m s with
           | (Ok a, s') => k a s'
           | (Raise e, s') => (Raise e, s')
           end.

Definition raise {S A} (e : Exception) : M S A := fun s => (Raise e, s).

(** [try: body except Exception as e: handler e] *)
Definition try_except {S A} (body : M S A) (handler : Exception -> M S A) : M S A :=
  fun s => match body s with
           | (Ok a, s') => (Ok a, s')
           | (Raise e, s') => handler e s'
           end.

Definition modify {S} (f : S -> S) : M S unit := fun s => (Ok tt, f s).

(** [s * n] on strings *)
Fixpoint str_mul (s : string) (n : nat) : string :=
  match n with
  | O => ""
  | S n' => s +:+ str_mul s n'
  end.

Definition nl : string := String (Ascii.ascii_of_nat 10) "".

(** A dict keeps its keys in insertion order; assigning to a key that
    is present replaces the value in place. *)
Fixpoint dict_set {V} (k : string) (v : V) (d : list (string * V)) : list (string * V) :=
  match d with
  | [] => [(k, v)]
  | (k', v') :: d' =>
      if decide (k' = k) then (k, v) :: d' else (k', v') :: dict_set k v d'
  end.

Fixpoint dict_get {V} (k : string) (d : list (string * V)) : option V :=
  match d with
  | [] => None
  | (k', v') :: d' => if decide (k' = k) then Some v' else dict_get k d'
  end.

End Py.

Export Py.

Declare Scope py_scope.
Delimit Scope py_scope with py.
Notation "x <- m ;; k" := (bind m (fun x => k))
  (at level 100, m at next level, right associativity) : py_scope.
Notation "m ;;; k" := (bind m (fun _ => k))
  (at level 100, right associativity) : py_scope.

(** ** Floating-point results

    The statistics the profiler prints are floats.  In [Np] they are
    kept as exact rationals (in lowest terms), with [FNaN] for
    not-a-number: the value the computation has in exact arithmetic.
    The doubles the machine computes for the percentage are in [F64]
    below. *)

Module Np.

Inductive float : Type :=
| FNaN
| Fin (q : Q).

(** Rounding to the nearest integer, ties to the even one. *)
Definition round_half_even (q : Q) : Z :=
  let f := Qfloor q in
  match (q - inject_Z f ?= 1 # 2)%Q with
  | Lt => f
  | Gt => (f + 1)%Z
  | Eq => if Z.even f then f else (f + 1)%Z
  end.

(** [x.round(1)]: scale by ten, round, scale back. *)
Definition round1_Q (q : Q) : Q :=
  Qred (round_half_even (q * 10) # 10).

Definition round1 (x : float) : float :=
  match x with
  | FNaN => FNaN
  | Fin q => Fin (round1_Q q)
  end.

Definition fmul (x : float) (k : Z) : float :=
  match x with
  | FNaN => FNaN
  | Fin q => Fin (Qred (q * inject_Z k))
  end.

(** The mean of a boolean vector: the number of [True] over the
    length; not-a-number for the empty vector (no error is raised). *)
Definition mean (bs : list bool) : float :=
  match length bs with
  | O => FNaN
  | S n => Fin (Qred (Z.of_nat (length (filter (fun b => b = true) bs))
                      # Pos.of_succ_nat n))
  end.

Definition sum (bs : list bool) : nat :=
  length (filter (fun b => b = true) bs).

(** [0 <= x <= 100]; false for not-a-number, as every comparison
    with it is. *)
Definition in_0_100 (x : float) : Prop :=
  match x with
  | FNaN => False
  | Fin q => (0 <= q /\ q <= 100)%Q
  end.

End Np.

(** ** The percentage in double precision

    Line 51, [(df.isnull().mean() * 100).round(1)], as the machine
    computes it: every operation is the IEEE 754 binary64 one.  *)

Module F64.

#[local] Open Scope float_scope.

(** A count as a double (exact below 2^53). *)
Definition of_nat (n : nat) : PrimFloat.float :=
  PrimFloat.of_uint63 (Uint63.of_Z (Z.of_nat n)).

(** [np.rint] on [0 <= x < 2^52], the only arguments it gets here:
    adding and taking away 2^52 rounds to the nearest integer, ties to
    the even one. *)
Definition rint (x : PrimFloat.float) : PrimFloat.float :=
  (x + 4503599627370496) - 4503599627370496.

(** [np.round(x, 1)]: multiply by ten, [rint], divide by ten. *)
Definition round1 (x : PrimFloat.float) : PrimFloat.float :=
  rint (x * 10) / 10.

(** The mean of a boolean column: the sum over the count, both as
    doubles; [0 / 0] is not-a-number and raises nothing. *)
Definition mean (bs : list bool) : PrimFloat.float :=
  of_nat (Np.sum bs) / of_nat (length bs).

Definition pct_missing (bs : list bool) : PrimFloat.float :=
  round1 (mean bs * 100).







End F64.

(** ** The tabular library *)

Module Pandas.

(** A cell value.  [NaN] is the missing-value marker (also what an
    empty spreadsheet cell is read as); a float and a timestamp are
    identified by the text Python prints for them, which determines the
    value. *)
Inductive cell : Type :=
| NaN
| Str (s : string)
| Int (z : Z)
| Float (repr : string)
| Bool (b : bool)
| Timestamp (repr : string).

#[global] Instance cell_eq_dec : EqDecision cell.
Proof. solve_decision. Defined.

Inductive dtype : Type := object | int64 | float64 | boolean | datetime64.

#[global] Instance dtype_eq_dec : EqDecision dtype.
Proof. solve_decision. Defined.

(** [str(dtype)] *)
Definition dtype_name (d : dtype) : string :=
  match d with
  | object => "object"
  | int64 => "int64"
  | float64 => "float64"
  | boolean => "bool"
  | datetime64 => "datetime64[ns]"
  end.

(** [str(v)] for a cell value *)
Definition py_str (c : cell) : string :=
  match c with
  | NaN => "nan"
  | Str s => s
  | Int z => pretty z
  | Float r => r
  | Bool true => "True"
  | Bool false => "False"
  | Timestamp r => r
  end.

Definition is_str (c : cell) : bool :=
  match c with Str _ => true | _ => false end.

Definition isna (c : cell) : bool :=
  match c with NaN => true | _ => false end.

(** A column taken out of a frame. *)
Record Series := mkSeries { s_dtype : dtype; s_values : list cell }.

(** A frame: the labelled, typed columns and the data row by row.  A
    row shorter than the header is padded with [NaN] and a longer one
    is cut, so every column has as many entries as there are rows. *)
Record DataFrame := mkFrame {
  df_columns : list (string * dtype);
  df_rows : list (list cell)
}.

Definition labels (df : DataFrame) : list string := map fst (df_columns df).

(** [df.shape] *)
Definition nrows (df : DataFrame) : nat := length (df_rows df).
Definition ncols (df : DataFrame) : nat := length (df_columns df).

Definition row_at (width : nat) (r : list cell) : list cell :=
  map (fun j => nth j r NaN) (seq 0 width).

(** The rows, each of the frame's width. *)
Definition rows (df : DataFrame) : list (list cell) :=
  map (row_at (ncols df)) (df_rows df).

(** The values of the column at position [j]. *)
Definition column (df : DataFrame) (j : nat) : list cell :=
  map (fun r => nth j r NaN) (df_rows df).

Fixpoint index_of (l : string) (ls : list string) : option nat :=
  match ls with
  | [] => None
  | l' :: ls' => if decide (l' = l) then Some O else S <$> index_of l ls'
  end.

(** [df[col]]; a label that is not a column raises [KeyError]. *)
Definition getitem (df : DataFrame) (col : string) : result Series :=
  match index_of col (labels df) with
  | Some j => Ok (mkSeries (nth j (map snd (df_columns df)) object) (column df j))
  | None => Raise (mkException "KeyError" ("'" +:+ col +:+ "'"))
  end.

(** A statistic computed column by column: the result is indexed by
    the column labels, in the frame's column order. *)
Definition per_column {A} (f : list cell -> A) (df : DataFrame) : list (string * A) :=
  imap (fun j c => (fst c, f (column df j))) (df_columns df).

(** [df.dtypes] *)
Definition dtypes (df : DataFrame) : list (string * dtype) := df_columns df.

(** [df.isnull()], one boolean column per column *)
Definition isnull (df : DataFrame) : list (string * list bool) :=
  per_column (map isna) df.

(** [df.isnull().sum()] and [df.isnull().mean()] *)
Definition isnull_sum (df : DataFrame) : list (string * nat) :=
  prod_map id Np.sum <$> isnull df.
Definition isnull_mean (df : DataFrame) : list (string * Np.float) :=
  prod_map id Np.mean <$> isnull df.

(** [s.dropna()] *)
Definition dropna_values (vs : list cell) : list cell :=
  filter (fun c => isna c = false) vs.
Definition dropna (s : Series) : Series :=
  mkSeries (s_dtype s) (dropna_values (s_values s)).

(** The distinct values of a list, each at its first occurrence. *)
Fixpoint unique {A} `{EqDecision A} (xs : list A) : list A :=
  match xs with
  | [] => []
  | x :: xs' => x :: filter (fun y => y <> x) (unique xs')
  end.

(** [df.nunique()]: distinct values per column, missing ones left out *)
Definition nunique (df : DataFrame) : list (string * nat) :=
  per_column (fun vs => length (unique (dropna_values vs))) df.

(** [df.duplicated()] with the default [keep='first']: one pass over
    the rows with the set of rows seen so far; a row is flagged when
    it is already in the set.  Missing values compare equal to each
    other here. *)
Fixpoint duplicated_from (seen rest : list (list cell)) : list bool :=
  match rest with
  | [] => []
  | r :: rest' => bool_decide (r ∈ seen) :: duplicated_from (r :: seen) rest'
  end.

Definition duplicated (df : DataFrame) : list bool :=
  duplicated_from [] (rows df).

(** [len(s)] and [s.empty] *)
Definition len (s : Series) : nat := length (s_values s).
Definition empty (s : Series) : bool := Nat.eqb (len s) 0.

(** Drawing [n] entries without replacement: each draw takes the next
    number of the random source and removes the entry it selects. *)
Fixpoint draw (rnd : nat -> nat) (k n : nat) (xs : list cell) : list cell :=
  match n with
  | O => []
  | S n' =>
      match xs with
      | [] => []
      | _ :: _ =>
          let i := rnd k mod length xs in
          nth i xs NaN :: draw rnd (S k) n' (delete i xs)
      end
  end.

(** The strings pandas reads as a missing value by default. *)
Definition STR_NA_VALUES : list string :=
  [""; "#N/A"; "#N/A N/A"; "#NA"; "-1.#IND"; "-1.#QNAN"; "-NaN"; "-nan";
   "1.#IND"; "1.#QNAN"; "<NA>"; "N/A"; "NA"; "NULL"; "NaN"; "None";
   "n/a"; "nan"; "null"].

(** A raw value that is read as missing: an empty cell, or text that
    is one of the missing-value strings ([na_values] adds to the
    defaults). *)
Definition reads_as_na (na_values : list string) (c : cell) : bool :=
  match c with
  | NaN => true
  | Str s => bool_decide (s ∈ STR_NA_VALUES ++ na_values)
  | _ => false
  end.

Definition mask_na (na_values : list string) (c : cell) : cell :=
  if reads_as_na na_values c then NaN else c.

(** Python's [==] on two raw values, as the reader's hash table sees
    them: [True] equals [1] and [False] equals [0]; otherwise two
    values are equal when they are the same value.  (A number with
    an integral value is handed over as an [Int], so a [Float] never
    equals an [Int] or a [Bool].) *)
Definition py_eq (a b : cell) : bool :=
  match a, b with
  | Int z, Bool t | Bool t, Int z => Z.eqb z (if t then 1 else 0)
  | _, _ => bool_decide (a = b)
  end.

(** [sanitize_objects]: one pass over the values of a column.  A value
    that reads as missing becomes [NaN]; a value equal to one met
    before in the column is replaced by that earlier value; any
    other value is kept and remembered. *)
Fixpoint sanitize_objects (na_values : list string) (memo values : list cell)
  : list cell :=
  match values with
  | [] => []
  | val :: rest =>
      if reads_as_na na_values val then
        NaN :: sanitize_objects na_values memo rest
      else
        match List.find (py_eq val) memo with
        | Some seen => seen :: sanitize_objects na_values memo rest
        | None => val :: sanitize_objects na_values (memo ++ [val]) rest
        end
  end.

(** The cast to [str]: missing stays missing, any other value becomes
    its text. *)
Definition ensure_string (c : cell) : cell :=
  match c with
  | NaN => NaN
  | _ => Str (py_str c)
  end.

(** The column type inferred from the values of a column (after the
    missing-value strings have been masked), for columns made of
    spreadsheet numbers, timestamps, empty cells, and text that reads
    neither as a number nor as a truth value.  A column without rows
    is [object]; a column with nothing but missing values is
    [float64]. *)
Definition is_int (c : cell) : bool := match c with Int _ => true | _ => false end.
Definition is_number (c : cell) : bool :=
  match c with Int _ | Float _ | NaN => true | _ => false end.
Definition is_bool (c : cell) : bool := match c with Bool _ => true | _ => false end.
Definition is_time (c : cell) : bool :=
  match c with Timestamp _ | NaN => true | _ => false end.

Definition infer_dtype (vs : list cell) : dtype :=
  match vs with
  | [] => object
  | _ :: _ =>
      if forallb isna vs then float64
      else if forallb is_int vs then int64
      else if forallb is_number vs then float64
      else if forallb is_bool vs then boolean
      else if forallb is_time vs then datetime64
      else object
  end.

(** An integer stored in a [float64] column is the float of that
    value. *)
Definition coerce (d : dtype) (c : cell) : cell :=
  match d, c with
  | float64, Int z => Float (pretty z +:+ ".0")
  | _, _ => c
  end.

(** A worksheet as the spreadsheet reader hands it over: the labels
    pandas gives the columns (from the header row) and the data rows
    below it.  The reader cuts the empty cells at the end of a row and
    the empty rows at the end of a sheet; a short row is padded when
    the frame is built. *)
Record Worksheet := mkSheet {
  ws_header : list string;
  ws_body : list (list cell)
}.

Definition raw_column (ws : Worksheet) (j : nat) : list cell :=
  map (fun r => nth j r NaN) (ws_body ws).

(** One sheet read with [dtype=str] and the given [na_values]: every
    column is sanitized and cast to [str] on its own, and the frame
    is put together from the columns. *)
Definition str_column (na_values : list string) (ws : Worksheet) (j : nat)
  : list cell :=
  map ensure_string (sanitize_objects na_values [] (raw_column ws j)).

Definition parse_str (na_values : list string) (ws : Worksheet) : DataFrame :=
  mkFrame (map (fun l => (l, object)) (ws_header ws))
          (map (fun i => map (fun j => nth i (str_column na_values ws j) NaN)
                             (seq 0 (length (ws_header ws))))
               (seq 0 (length (ws_body ws)))).

(** One sheet read with inferred column types. *)
Definition inferred_dtypes (ws : Worksheet) : list dtype :=
  imap (fun j _ => infer_dtype (map (mask_na []) (raw_column ws j))) (ws_header ws).

Definition parse_inferred (ws : Worksheet) : DataFrame :=
  mkFrame (zip (ws_header ws) (inferred_dtypes ws))
          (map (fun r => imap (fun j d => coerce d (mask_na [] (nth j r NaN)))
                              (inferred_dtypes ws))
               (ws_body ws)).

(** A workbook: its sheets in file order, by name. *)
Definition Workbook : Type := list (string * Worksheet).

Definition sheet_names (wb : Workbook) : list string := map fst wb.

(** What a path leads to. *)
Inductive file_state : Type :=
| NoSuchFile
| NotReadable
| NotSpreadsheet
| Book (wb : Workbook).

Definition FileNotFoundError (path : string) : Exception :=
  mkException "FileNotFoundError"
    ("[Errno 2] No such file or directory: '" +:+ path +:+ "'").
Definition PermissionError (path : string) : Exception :=
  mkException "PermissionError"
    ("[Errno 13] Permission denied: '" +:+ path +:+ "'").
Definition BadZipFile : Exception :=
  mkException "BadZipFile" "File is not a zip file".
Definition ValueError (msg : string) : Exception :=
  mkException "ValueError" msg.

(** Opening a workbook with the openpyxl engine. *)
Definition load_workbook (path : string) (f : file_state) : result Workbook :=
  match f with
  | NoSuchFile => Raise (FileNotFoundError path)
  | NotReadable => Raise (PermissionError path)
  | NotSpreadsheet => Raise BadZipFile
  | Book wb => Ok wb
  end.

(** [sheet_name=None]: every sheet, into a dict keyed by sheet name. *)
Definition put_sheet (na_values : list string) (d : gmap string DataFrame)
    (s : string * Worksheet) : gmap string DataFrame :=
  <[fst s := parse_str na_values (snd s)]> d.

Definition parse_all (na_values : list string) (wb : Workbook) : gmap string DataFrame :=
  foldl (put_sheet na_values) ∅ wb.

(** [sheet_name=name]: that sheet, or [ValueError] when the workbook
    has no sheet of that name. *)
Definition parse_one (name : string) (wb : Workbook) : result DataFrame :=
  match dict_get name wb with
  | Some ws => Ok (parse_inferred ws)
  | None => Raise (ValueError ("Worksheet named '" +:+ name +:+ "' not found"))
  end.

(** [pd.DataFrame(d)] for a dict of arrays: the arrays become the
    columns, in key order, and must all have one length. *)
Definition DataFrame_of_dict (d : list (string * list cell))
  : result (list (string * list cell)) :=
  match d with
  | [] => Ok []
  | (_, v) :: d' =>
      if forallb (fun e => Nat.eqb (length (snd e)) (length v)) d'
      then Ok d
      else Raise (ValueError "All arrays must be of the same length")
  end.

End Pandas.

(** ** The two functions of data_tools *)

Module DataTools.
Import Pandas.
#[local] Open Scope py_scope.

(** *** What the functions touch outside themselves *)

(** A value of the metadata dict. *)
Inductive pyvalue : Type :=
| PStr (s : string)
| PInt (z : Z).

(** One row of the data-quality frame. *)
Record dq_row := mkDq {
  data_type : string;
  missing_values : nat;
  pct_missing : Np.float;
  unique_values : nat
}.

(** The argument of a [tabulate] call; the text layout is the
    renderer's and is not reproduced. *)
Inductive Table : Type :=
| tabulate_items (rows : list (string * pyvalue)) (headers : list string) (tablefmt : string)
| tabulate_quality (dq : list (string * dq_row)) (tablefmt : string)
| tabulate_frame (cols : list (string * list cell)) (tablefmt : string).

(** The bar chart: one bar per row of the data-quality frame. *)
Record Figure := mkFigure {
  fig_title : string;
  fig_bars : list (string * Np.float);
  fig_tickangle : Z
}.

(** What reaches the user, in order. *)
Inductive event : Type :=
| Line (text : string)
| Tabulated (t : Table)
| Chart (fig : Figure).

(** The state a call runs over: the console so far, the paths opened
    so far, and how many random numbers were used. *)
Record Runtime := mkRuntime {
  stdout : list event;
  opened : list string;
  rng_pos : nat
}.

(** The surroundings of a call: the files, the size of a frame in
    memory (a matter of the library's layout), the random source, and
    the error the chart renderer raises, if any. *)
Record World := mkWorld {
  fs : string -> file_state;
  memory_usage_deep : DataFrame -> N;
  rnd : nat -> nat;
  show_error : option Exception
}.

Definition lift {A} (r : result A) : M Runtime A := fun st => (r, st).

Definition print (e : event) : M Runtime unit :=
  modify (fun st => mkRuntime (stdout st ++ [e]) (opened st) (rng_pos st)).

Definition open_workbook (w : World) (path : string) : M Runtime Workbook :=
  modify (fun st => mkRuntime (stdout st) (opened st ++ [path]) (rng_pos st)) ;;;
  lift (load_workbook path (fs w path)).

(** [pd.read_excel(path, sheet_name=None, engine='openpyxl',
     dtype=str, na_values=...)] *)
Definition read_excel_all_str (w : World) (path : string) (na_values : list string)
  : M Runtime (gmap string DataFrame) :=
  wb <- open_workbook w path ;;
  ret (parse_all na_values wb).

(** [pd.read_excel(path, sheet_name=name, engine='openpyxl')] *)
Definition read_excel (w : World) (path name : string) : M Runtime DataFrame :=
  wb <- open_workbook w path ;;
  lift (parse_one name wb).

(** [s.sample(n)]: more than the series holds cannot be drawn. *)
Definition sample (w : World) (n : nat) (s : Series) : M Runtime (list cell) :=
  fun st =>
    if decide (len s < n)
    then (Raise (ValueError
            "Cannot take a larger sample than population when 'replace=False'"), st)
    else (Ok (draw (rnd w) (rng_pos st) n (s_values s)),
          mkRuntime (stdout st) (opened st) (rng_pos st + n)).

(** [fig.show()] *)
Definition show (w : World) (fig : Figure) : M Runtime unit :=
  match show_error w with
  | Some e => raise e
  | None => print (Chart fig)
  end.

(** [f"{x:.2f}"] for a non-negative [x] *)
Definition format_2f (x : Q) : string :=
  let h := Np.round_half_even (x * 100) in
  pretty (h / 100)%Z +:+ "." +:+ pretty ((h / 10) mod 10)%Z +:+ pretty (h mod 10)%Z.

(** *** read_all_excel_sheets *)

Definition read_all_excel_sheets (w : World) (file_path : string)
  : M Runtime (gmap string DataFrame) :=
  sheets_dict <- read_excel_all_str w file_path [""; "NA"] ;;
  ret sheets_dict.

(** *** df_overview *)

Definition metadata (w : World) (sheet_name : string) (df : DataFrame)
  : list (string * pyvalue) :=
  [ ("Sheet Name", PStr sheet_name);
    ("Rows", PInt (Z.of_nat (nrows df)));
    ("Columns", PInt (Z.of_nat (ncols df)));
    ("Memory Usage",
      PStr (format_2f (Z.of_N (memory_usage_deep w df) # 1048576) +:+ " MB"));
    ("Duplicate Rows", PInt (Z.of_nat (Np.sum (duplicated df)))) ].

(** The frame built from the four statistics.  All four are indexed
    by the column labels in the same order, so the rows pair up by
    position. *)
Definition quality_frame (types : list (string * string))
    (missing : list (string * nat)) (pct : list (string * Np.float))
    (uniq : list (string * nat)) : list (string * dq_row) :=
  imap (fun j t =>
          (fst t, mkDq (snd t)
                       (nth j (map snd missing) O)
                       (nth j (map snd pct) Np.FNaN)
                       (nth j (map snd uniq) O)))
       types.

Definition data_quality (df : DataFrame) : list (string * dq_row) :=
  quality_frame
    (prod_map id dtype_name <$> dtypes df)
    (isnull_sum df)
    (prod_map id (fun m => Np.round1 (Np.fmul m 100)) <$> isnull_mean df)
    (nunique df).

(** The body of the loop over [df.columns]. *)
Definition sample_column (w : World) (df : DataFrame) (col : string)
  : M Runtime (list cell) :=
  s <- lift (getitem df col) ;;
  if decide (s_dtype s = object) then
    sample w (Nat.min 3 (len s)) (dropna s)
  else if negb (empty s) then
    sample w (Nat.min 3 (len s)) s
  else
    ret [].

Fixpoint sample_loop (w : World) (df : DataFrame) (cols : list string)
    (sample_values : list (string * list cell))
  : M Runtime (list (string * list cell)) :=
  match cols with
  | [] => ret sample_values
  | col :: cols' =>
      v <- sample_column w df col ;;
      sample_loop w df cols' (dict_set col v sample_values)
  end.

Definition rule : string := str_mul "-" 60.

Definition missing_fig (sheet_name : string) (dq : list (string * dq_row)) : Figure :=
  mkFigure ("Missing Values by Column: " +:+ sheet_name)
           (prod_map id pct_missing <$> dq)
           (-45).

(** The statements inside [try]. *)
Definition df_overview_body (w : World) (file_path sheet_name : string)
  : M Runtime unit :=
  df <- read_excel w file_path sheet_name ;;
  let metadata := metadata w sheet_name df in
  let dq := data_quality df in
  sample_values <- sample_loop w df (labels df) [] ;;
  print (Line (nl +:+ rule +:+ nl +:+ "DATA OVERVIEW: " +:+ sheet_name
                +:+ nl +:+ rule)) ;;;
  print (Tabulated (tabulate_items metadata ["Metadata"; "Value"] "pretty")) ;;;
  print (Line (nl +:+ nl +:+ rule +:+ nl +:+ "DATA QUALITY ASSESSMENT"
                +:+ nl +:+ rule)) ;;;
  print (Tabulated (tabulate_quality dq "psql")) ;;;
  print (Line (nl +:+ nl +:+ rule +:+ nl +:+ "VALUE SAMPLE" +:+ nl +:+ rule)) ;;;
  frame <- lift (DataFrame_of_dict sample_values) ;;
  print (Tabulated (tabulate_frame frame "psql")) ;;;
  show w (missing_fig sheet_name dq).

(** The line the handler prints. *)
Definition diagnostic (sheet_name : string) (e : Exception) : string :=
  "Error processing sheet '" +:+ sheet_name +:+ "': " +:+ exc_str e.

Definition df_overview (w : World) (file_path sheet_name : string)
  : M Runtime unit :=
  try_except
    (df_overview_body w file_path sheet_name)
    (fun e => print (Line (diagnostic sheet_name e))).

(** *** After loading

    The statements of lines 38 to 88 for the frame that line 36
    loaded, and the same statements inside the same [try]:
    [df_overview] is [read_excel] followed by these. *)
Definition profile_frame (w : World) (sheet_name : string) (df : DataFrame)
  : M Runtime unit :=
  let metadata := metadata w sheet_name df in
  let dq := data_quality df in
  sample_values <- sample_loop w df (labels df) [] ;;
  print (Line (nl +:+ rule +:+ nl +:+ "DATA OVERVIEW: " +:+ sheet_name
                +:+ nl +:+ rule)) ;;;
  print (Tabulated (tabulate_items metadata ["Metadata"; "Value"] "pretty")) ;;;
  print (Line (nl +:+ nl +:+ rule +:+ nl +:+ "DATA QUALITY ASSESSMENT"
                +:+ nl +:+ rule)) ;;;
  print (Tabulated (tabulate_quality dq "psql")) ;;;
  print (Line (nl +:+ nl +:+ rule +:+ nl +:+ "VALUE SAMPLE" +:+ nl +:+ rule)) ;;;
  frame <- lift (DataFrame_of_dict sample_values) ;;
  print (Tabulated (tabulate_frame frame "psql")) ;;;
  show w (missing_fig sheet_name dq).

Definition df_overview_loaded (w : World) (sheet_name : string) (df : DataFrame)
  : M Runtime unit :=
  try_except
    (profile_frame w sheet_name df)
    (fun e => print (Line (diagnostic sheet_name e))).

(** *** The console as a device that can refuse

    [print] above writes to a console that takes whatever it is
    given.  A real standard output can refuse a text (a closed pipe,
    a character its encoding lacks); [print] then raises and nothing
    is written.  The console is the exception it raises for a given
    write, if any, and the two functions below are [df_overview] over
    such a console; the chart does not go through it. *)
Definition Console : Type := event -> option Exception.

Definition print_on (console : Console) (e : event) : M Runtime unit :=
  fun st =>
    match console e with
    | Some err => (Raise err, st)
    | None => print e st
    end.

Definition df_overview_body_on (console : Console) (w : World)
    (file_path sheet_name : string) : M Runtime unit :=
  df <- read_excel w file_path sheet_name ;;
  let metadata := metadata w sheet_name df in
  let dq := data_quality df in
  sample_values <- sample_loop w df (labels df) [] ;;
  print_on console (Line (nl +:+ rule +:+ nl +:+ "DATA OVERVIEW: " +:+ sheet_name
                          +:+ nl +:+ rule)) ;;;
  print_on console
    (Tabulated (tabulate_items metadata ["Metadata"; "Value"] "pretty")) ;;;
  print_on console (Line (nl +:+ nl +:+ rule +:+ nl +:+ "DATA QUALITY ASSESSMENT"
                          +:+ nl +:+ rule)) ;;;
  print_on console (Tabulated (tabulate_quality dq "psql")) ;;;
  print_on console (Line (nl +:+ nl +:+ rule +:+ nl +:+ "VALUE SAMPLE"
                          +:+ nl +:+ rule)) ;;;
  frame <- lift (DataFrame_of_dict sample_values) ;;
  print_on console (Tabulated (tabulate_frame frame "psql")) ;;;
  show w (missing_fig sheet_name dq).

Definition df_overview_on (console : Console) (w : World)
    (file_path sheet_name : string) : M Runtime unit :=
  try_except
    (df_overview_body_on console w file_path sheet_name)
    (fun e => print_on console (Line (diagnostic sheet_name e))).

End DataTools.

Import Pandas DataTools.

(** ** Inputs used in the statements below *)

Definition st0 : Runtime := mkRuntime [] [] 0.

Definition no_files : string -> file_state := fun _ => NoSuchFile.

Definition with_file (path : string) (f : file_state) (files : string -> file_state)
  : string -> file_state :=
  fun p => if decide (p = path) then f else files p.

Definition world_of (files : string -> file_state) : World :=
  mkWorld files (fun _ => 0%N) (fun k => k) None.

(** The workbook of the loader example: two sheets. *)
Definition summary_detail : Workbook :=
  [ ("Summary", mkSheet ["region"; "total"] [[Str "north"; Int 12]; [Str "south"; Int 7]]);
    ("Detail", mkSheet ["code"; "note"] [[Str "007"; Str "NA"]; [Int 8; NaN]]) ].

(** A console that takes every text, and one whose reader is gone. *)
Definition open_console : Console := fun _ => None.
Definition broken_pipe : Console :=
  fun _ => Some (mkException "BrokenPipeError" "[Errno 32] Broken pipe").

(** A frame all of whose cells are strings. *)
Definition all_strings (df : DataFrame) : Prop :=
  Forall (Forall (fun c => is_str c = true)) (df_rows df).

(** A sheet with a header row and no data rows. *)
Definition header_only : Worksheet := mkSheet ["id"; "name"] [].

(** How often [r] occurs among [rs]. *)
Definition occurrences (r : list cell) (rs : list (list cell)) : nat :=
  length (filter (fun x => x = r) rs).

(** The rows that carry a [True] flag. *)
Definition flagged (rs : list (list cell)) (flags : list bool) : list (list cell) :=
  fst <$> filter (fun p => snd p = true) (zip rs flags).

(** Two sheets of three rows: beside a full id column, a text column
    with one value and two empty cells, and a number column of the same
    shape. *)
Definition sparse_text : Worksheet :=
  mkSheet ["id"; "name"] [[Int 1; Str "x"]; [Int 2; NaN]; [Int 3; NaN]].
Definition sparse_number : Worksheet :=
  mkSheet ["id"; "amount"] [[Int 1; Int 10]; [Int 2; NaN]; [Int 3; NaN]].

(** Sheet Q1 of orders.xlsx: 100 rows, 5 columns, the last one empty
    throughout. *)
Definition orders_q1 : Worksheet :=
  mkSheet ["id"; "qty"; "price"; "item"; "note"]
          (map (fun i => [Int (Z.of_nat i); Int (Z.of_nat (i mod 7)); Float "9.5";
                          Str "item"; NaN])
               (seq 0 100)).

(** Everything [df_overview] does before its first [print]: loading the
    sheet and drawing the samples (the metadata and the data-quality
    frame are pure functions of the loaded frame). *)
Definition compute_phase (w : World) (file_path sheet_name : string)
  : M Runtime (DataFrame * list (string * list cell)) :=
  bind (read_excel w file_path sheet_name) (fun df =>
  bind (sample_loop w df (labels df) []) (fun sample_values =>
  ret (df, sample_values))).

(** The first five prints of a report, in order. *)
Definition report_head (w : World) (sheet_name : string) (df : DataFrame) : list event :=
  [ Line (nl +:+ rule +:+ nl +:+ "DATA OVERVIEW: " +:+ sheet_name +:+ nl +:+ rule);
    Tabulated (tabulate_items (metadata w sheet_name df) ["Metadata"; "Value"] "pretty");
    Line (nl +:+ nl +:+ rule +:+ nl +:+ "DATA QUALITY ASSESSMENT" +:+ nl +:+ rule);
    Tabulated (tabulate_quality (data_quality df) "psql");
    Line (nl +:+ nl +:+ rule +:+ nl +:+ "VALUE SAMPLE" +:+ nl +:+ rule) ].

(** What follows them: the sample table and the chart, or the
    diagnostic line at the first of the two that fails. *)
Definition report_tail (w : World) (sheet_name : string) (df : DataFrame)
    (sample_values : list (string * list cell)) : list event :=
  match DataFrame_of_dict sample_values with
  | Raise e => [Line (diagnostic sheet_name e)]
  | Ok frame =>
      Tabulated (tabulate_frame frame "psql")
      :: match show_error w with
         | Some e => [Line (diagnostic sheet_name e)]
         | None => [Chart (missing_fig sheet_name (data_quality df))]
         end
  end.



(** The error of a draw that asks for more than there is. *)
Definition sample_too_large : Exception :=
  ValueError "Cannot take a larger sample than population when 'replace=False'".

(** The same condition in the terms of the loop body, for the column
    [df[col]]: a text column must keep [min(3, len)] values after
    [dropna]. *)
Definition col_ok (df : DataFrame) (col : string) : Prop :=
  forall s, getitem df col = Ok s ->
            s_dtype s = object ->
            Nat.min 3 (len s) <= length (dropna_values (s_values s)).



(** ** The loader *)

Section Loader.
Variable na_values : list string.

Lemma parse_all_dom_from (wb : Workbook) (d : gmap string DataFrame) :
  dom (foldl (put_sheet na_values) d wb) = dom d ∪ list_to_set (sheet_names wb).
Proof.
  revert d. induction wb as [|[n ws] wb IH]; intros d; simpl.
  - unfold sheet_names. simpl. set_solver.
  - rewrite IH. unfold put_sheet, sheet_names. simpl. rewrite dom_insert_L. set_solver.
Qed.

Lemma parse_all_size_from (wb : Workbook) (d : gmap string DataFrame) :
  NoDup (sheet_names wb) ->
  (forall n, n ∈ sheet_names wb -> d !! n = None) ->
  size (foldl (put_sheet na_values) d wb) = size d + length wb.
Proof.
  revert d. induction wb as [|[n ws] wb IH]; intros d Hnd Hfresh; simpl.
  - lia.
  - simpl in Hnd. apply NoDup_cons in Hnd as [Hn Hnd].
    rewrite IH; [|done|].
    + unfold put_sheet. simpl. rewrite map_size_insert_None; [lia|].
      apply Hfresh. simpl. left.
    + intros m Hm. unfold put_sheet. simpl.
      rewrite lookup_insert_ne; [|intros ->; done].
      apply Hfresh. simpl. by right.
Qed.

Lemma parse_all_lookup_from (wb : Workbook) (d : gmap string DataFrame) n ws :
  NoDup (sheet_names wb) ->
  (n, ws) ∈ wb ->
  foldl (put_sheet na_values) d wb !! n = Some (parse_str na_values ws).
Proof.
  revert d. induction wb as [|[n' ws'] wb IH]; intros d Hnd Hin; simpl.
  - by apply elem_of_nil in Hin.
  - simpl in Hnd. apply NoDup_cons in Hnd as [Hn Hnd].
    apply elem_of_cons in Hin as [Heq | Hin].
    + inversion Heq; subst n' ws'. clear IH.
      assert (forall d', d' !! n = Some (parse_str na_values ws) ->
                         foldl (put_sheet na_values) d' wb !! n = Some (parse_str na_values ws)) as Hkeep.
      { clear d. induction wb as [|[m wm] wb IH]; intros d' Hd'; simpl; [done|].
        simpl in Hn, Hnd. apply NoDup_cons in Hnd as [_ Hnd].
        apply IH; [set_solver|done|].
        unfold put_sheet. simpl. rewrite lookup_insert_ne; [done|]. set_solver. }
      apply Hkeep. unfold put_sheet. simpl. by rewrite lookup_insert_eq.
    + by apply IH.
Qed.

(** Every table of the dict is the [dtype=str] reading of some sheet. *)
Lemma parse_all_lookup_inv (wb : Workbook) (d : gmap string DataFrame) n df :
  foldl (put_sheet na_values) d wb !! n = Some df ->
  d !! n = Some df \/ exists ws, (n, ws) ∈ wb /\ df = parse_str na_values ws.
Proof.
  revert d. induction wb as [|[n' ws'] wb IH]; intros d H; simpl in *.
  - by left.
  - apply IH in H as [H | (ws & Hin & ->)].
    + unfold put_sheet in H. simpl in H.
      destruct (decide (n' = n)) as [->|Hne].
      * rewrite lookup_insert_eq in H. inversion H. right. exists ws'. split; [left|done].
      * rewrite lookup_insert_ne in H by done. by left.
    + right. exists ws. split; [by right|done].
Qed.

Lemma sanitize_objects_length (memo vs : list cell) :
  length (sanitize_objects na_values memo vs) = length vs.
Proof.
  revert memo. induction vs as [|v vs IH]; intros memo; [done|].
  cbn [sanitize_objects].
  destruct (reads_as_na na_values v); [by simpl; rewrite IH|].
  destruct (List.find (py_eq v) memo); by simpl; rewrite IH.
Qed.

(** The value at a position of a sanitized column is missing exactly
    when the raw value there reads as missing. *)
Lemma sanitize_objects_lookup (memo vs : list cell) (i : nat) (v : cell) :
  Forall (fun c => isna c = false) memo ->
  vs !! i = Some v ->
  exists c, sanitize_objects na_values memo vs !! i = Some c
            /\ isna c = reads_as_na na_values v.
Proof.
  revert memo i. induction vs as [|v0 vs IH]; intros memo i Hmemo Hi; [done|].
  cbn [sanitize_objects].
  destruct (reads_as_na na_values v0) eqn:Hna.
  - destruct i as [|i]; simpl in *.
    + inversion Hi; subst v0. exists NaN. by rewrite Hna.
    + by apply IH.
  - assert (isna v0 = false) as Hv0 by (by destruct v0).
    destruct (List.find (py_eq v0) memo) as [seen|] eqn:Hfind.
    + destruct i as [|i]; simpl in *.
      * inversion Hi; subst v0. exists seen. split; [done|]. rewrite Hna.
        apply find_some in Hfind as [Hin _].
        rewrite Forall_forall in Hmemo. apply Hmemo. by apply list_elem_of_In.
      * by apply IH.
    + destruct i as [|i]; simpl in *.
      * inversion Hi; subst v0. exists v. by rewrite Hna.
      * apply IH; [|done]. apply Forall_app. split; [done|]. by constructor.
Qed.

Lemma ensure_string_cases (c : cell) :
  ensure_string c = NaN \/ is_str (ensure_string c) = true.
Proof. destruct c; [by left|by right..]. Qed.

Lemma isna_ensure_string (c : cell) : isna (ensure_string c) = isna c.
Proof. by destruct c. Qed.

Lemma raw_column_lookup (ws : Worksheet) (i j : nat) (raw : list cell) :
  ws_body ws !! i = Some raw -> raw_column ws j !! i = Some (nth j raw NaN).
Proof. intros Hi. unfold raw_column. by rewrite list_lookup_fmap, Hi. Qed.

Lemma str_column_length (ws : Worksheet) (j : nat) :
  length (str_column na_values ws j) = length (ws_body ws).
Proof.
  unfold str_column, raw_column.
  by rewrite length_map, sanitize_objects_length, length_map.
Qed.

Lemma str_column_lookup (ws : Worksheet) (i j : nat) (raw : list cell) :
  ws_body ws !! i = Some raw ->
  exists c, str_column na_values ws j !! i = Some c
            /\ isna c = reads_as_na na_values (nth j raw NaN)
            /\ (c = NaN \/ is_str c = true).
Proof.
  intros Hi.
  destruct (sanitize_objects_lookup [] (raw_column ws j) i (nth j raw NaN))
    as (c & Hc & Hna); [constructor|by apply raw_column_lookup|].
  exists (ensure_string c). unfold str_column.
  rewrite list_lookup_fmap, Hc. split; [done|].
  rewrite isna_ensure_string. split; [done|apply ensure_string_cases].
Qed.

(** The entries of column [j] of the table are the sanitized column. *)
Lemma column_parse_str (ws : Worksheet) (j : nat) :
  j < length (ws_header ws) ->
  column (parse_str na_values ws) j = str_column na_values ws j.
Proof.
  intros Hj. unfold column, parse_str. simpl.
  rewrite <- list_fmap_compose. apply list_eq. intros i.
  rewrite list_lookup_fmap.
  destruct (decide (i < length (ws_body ws))) as [Hi|Hi].
  - rewrite lookup_seq_lt by done. simpl.
    rewrite (nth_lookup_Some (map _ (seq 0 (length (ws_header ws)))) j NaN
               (nth i (str_column na_values ws j) NaN)).
    2:{ by rewrite list_lookup_fmap, lookup_seq_lt. }
    destruct (lookup_lt_is_Some_2 (str_column na_values ws j) i) as [c Hc].
    { by rewrite str_column_length. }
    by rewrite Hc, (nth_lookup_Some _ _ _ _ Hc).
  - rewrite lookup_seq_ge by lia. simpl. symmetry. apply lookup_ge_None.
    rewrite str_column_length. lia.
Qed.

Lemma parse_str_cells (ws : Worksheet) :
  Forall (Forall (fun c => c = NaN \/ is_str c = true))
         (df_rows (parse_str na_values ws)).
Proof.
  unfold parse_str. simpl. apply Forall_forall. intros r Hr.
  apply list_elem_of_fmap in Hr as (i & -> & _).
  apply Forall_forall. intros c Hc.
  apply list_elem_of_fmap in Hc as (j & -> & _).
  unfold str_column.
  destruct (nth_in_or_default i
              (map ensure_string (sanitize_objects na_values [] (raw_column ws j)))
              NaN) as [Hin | ->]; [|by left].
  apply list_elem_of_In, list_elem_of_fmap in Hin as (c & -> & _).
  apply ensure_string_cases.
Qed.

Lemma parse_str_cell_at (ws : Worksheet) (i j : nat) (raw : list cell) :
  j < length (ws_header ws) ->
  ws_body ws !! i = Some raw ->
  if reads_as_na na_values (nth j raw NaN)
  then nth j (nth i (df_rows (parse_str na_values ws)) []) NaN = NaN
  else is_str (nth j (nth i (df_rows (parse_str na_values ws)) []) NaN) = true.
Proof.
  intros Hj Hi.
  destruct (str_column_lookup ws i j raw Hi) as (c & Hc & Hna & Hcases).
  assert (nth j (nth i (df_rows (parse_str na_values ws)) []) NaN = c) as ->.
  { unfold parse_str. simpl.
    rewrite (nth_lookup_Some _ i []
               (map (fun j => nth i (str_column na_values ws j) NaN)
                    (seq 0 (length (ws_header ws))))).
    2:{ rewrite list_lookup_fmap, lookup_seq_lt; [done|].
        by eapply lookup_lt_Some. }
    rewrite (nth_lookup_Some _ j NaN (nth i (str_column na_values ws j) NaN)).
    2:{ by rewrite list_lookup_fmap, lookup_seq_lt. }
    by apply nth_lookup_Some. }
  destruct (reads_as_na na_values (nth j raw NaN)).
  - by destruct c.
  - destruct Hcases as [-> | Hs]; [done|done].
Qed.
End Loader.

Lemma read_all_excel_sheets_book (w : World) (path : string) (st : Runtime) (wb : Workbook) :
  fs w path = Book wb ->
  read_all_excel_sheets w path st
  = (Ok (parse_all [""; "NA"] wb),
     mkRuntime (stdout st) (opened st ++ [path]) (rng_pos st)).
Proof.
  intros Hfs. unfold read_all_excel_sheets, read_excel_all_str, open_workbook.
  unfold bind, modify, lift, ret. simpl. rewrite Hfs. reflexivity.
Qed.

Lemma read_all_excel_sheets_inv (w : World) (path : string) (st st' : Runtime)
    (d : gmap string DataFrame) :
  read_all_excel_sheets w path st = (Ok d, st') ->
  exists wb, fs w path = Book wb /\ d = parse_all [""; "NA"] wb.
Proof.
  unfold read_all_excel_sheets, read_excel_all_str, open_workbook.
  unfold bind, modify, lift, ret. simpl.
  destruct (fs w path) as [| | |wb]; simpl; intros H; try discriminate.
  exists wb. split; [done|]. by inversion H.
Qed.

(** C5.  For a workbook with N sheets (a workbook's sheet names are
    distinct), the loader returns a dict with exactly N entries whose key
    set is the set of the sheet names, and the entry of each name is the
    table read from that sheet. *)
Theorem loader_one_table_per_sheet
    (w : World) (path : string) (st : Runtime) (wb : Workbook) :
  fs w path = Book wb ->
  NoDup (sheet_names wb) ->
  exists d st',
    read_all_excel_sheets w path st = (Ok d, st')
    /\ size d = length wb
    /\ dom d =@{gset string} list_to_set (sheet_names wb)
    /\ forall name ws, (name, ws) ∈ wb -> d !! name = Some (parse_str [""; "NA"] ws).
Proof.
  intros Hfs Hnd. eexists _, _. split; [by apply read_all_excel_sheets_book|].
  unfold parse_all. split; [|split].
  - rewrite parse_all_size_from; [by rewrite map_size_empty| done |].
    intros n _. apply lookup_empty.
  - rewrite parse_all_dom_from. rewrite dom_empty_L. set_solver.
  - intros name ws Hin. by apply parse_all_lookup_from.
Qed.

Lemma loader_one_table_per_sheet_witness :
  exists d st',
    read_all_excel_sheets (world_of (with_file "book.xlsx" (Book summary_detail) no_files))
                          "book.xlsx" st0 = (Ok d, st')
    /\ size d = 2
    /\ dom d =@{gset string} list_to_set ["Summary"; "Detail"]
    /\ forall name ws, (name, ws) ∈ summary_detail ->
                       d !! name = Some (parse_str [""; "NA"] ws).
Proof.
  apply (loader_one_table_per_sheet
           (world_of (with_file "book.xlsx" (Book summary_detail) no_files))
           "book.xlsx" st0 summary_detail).
  - reflexivity.
  - apply (bool_decide_unpack _). vm_compute. exact I.
Defined.

(** C7.  When the path does not lead to a workbook (no such file, not
    readable, not a spreadsheet), the loader raises the very exception
    the library raised on opening the file, returns no dict, and has
    opened the path exactly once. *)
Theorem loader_fails_fast (w : World) (path : string) (st : Runtime) :
  (forall wb, fs w path <> Book wb) ->
  exists e,
    load_workbook path (fs w path) = Raise e
    /\ read_all_excel_sheets w path st
       = (Raise e, mkRuntime (stdout st) (opened st ++ [path]) (rng_pos st)).
Proof.
  intros Hno. unfold read_all_excel_sheets, read_excel_all_str, open_workbook.
  unfold bind, modify, lift, ret. simpl.
  destruct (fs w path) as [| | |wb] eqn:Hfs; simpl.
  - by eexists.
  - by eexists.
  - by eexists.
  - by destruct (Hno wb).
Qed.

Lemma loader_fails_fast_witness :
  exists e,
    load_workbook "missing.xlsx" NoSuchFile = Raise e
    /\ read_all_excel_sheets (world_of no_files) "missing.xlsx" st0
       = (Raise e, mkRuntime [] ["missing.xlsx"] 0).
Proof.
  apply (loader_fails_fast (world_of no_files) "missing.xlsx" st0).
  intros wb H. discriminate H.
Defined.

(** C4, as stated, fails: the cell holding the text NA and the empty
    cell of sheet Detail are loaded as the missing-value marker, which
    is not a string. *)
Lemma loader_missing_cell_is_not_a_string :
  ~ (forall (w : World) (path : string) (st st' : Runtime)
            (d : gmap string DataFrame) (name : string) (df : DataFrame),
        read_all_excel_sheets w path st = (Ok d, st') ->
        d !! name = Some df ->
        all_strings df).
Proof.
  intros Hall.
  pose (w := world_of (with_file "book.xlsx" (Book summary_detail) no_files)).
  pose (ws := mkSheet ["code"; "note"] [[Str "007"; Str "NA"]; [Int 8; NaN]]).
  assert (all_strings (parse_str [""; "NA"] ws)) as Hstr.
  { eapply (Hall w "book.xlsx" st0).
    - by apply read_all_excel_sheets_book.
    - unfold parse_all.
      apply (parse_all_lookup_from _ summary_detail ∅ "Detail" ws).
      + apply (bool_decide_unpack _). vm_compute. exact I.
      + right. left. }
  unfold all_strings in Hstr. vm_compute in Hstr.
  inversion Hstr as [|? ? Hrow _]. inversion Hrow as [|? ? _ Hrest].
  inversion Hrest as [|? ? Hc _]. discriminate Hc.
Qed.

(** C4, amended.  Every table the loader returns is the reading of one
    sheet of the workbook in which every cell is either the
    missing-value marker or a string: a cell that is empty in the file,
    or whose text is one of the missing-value strings (the empty string
    and NA among them), is loaded as the marker, which is not a string;
    any other cell, of whatever type, is loaded as a string. *)
Theorem loader_cells_string_or_missing
    (w : World) (path : string) (st st' : Runtime)
    (d : gmap string DataFrame) (name : string) (df : DataFrame) :
  read_all_excel_sheets w path st = (Ok d, st') ->
  d !! name = Some df ->
  exists wb ws,
    fs w path = Book wb /\ (name, ws) ∈ wb /\ df = parse_str [""; "NA"] ws
    /\ Forall (Forall (fun c => c = NaN \/ is_str c = true)) (df_rows df)
    /\ forall i j raw,
         j < length (ws_header ws) ->
         ws_body ws !! i = Some raw ->
         if reads_as_na [""; "NA"] (nth j raw NaN)
         then nth j (nth i (df_rows df) []) NaN = NaN
         else is_str (nth j (nth i (df_rows df) []) NaN) = true.
Proof.
  intros Hrun Hlook.
  apply read_all_excel_sheets_inv in Hrun as (wb & Hfs & ->).
  unfold parse_all in Hlook.
  apply parse_all_lookup_inv in Hlook as [Hlook | (ws & Hin & ->)].
  { by rewrite lookup_empty in Hlook. }
  exists wb, ws. repeat split; try done.
  - apply parse_str_cells.
  - intros i j raw Hj Hi. by apply parse_str_cell_at.
Qed.

Lemma loader_cells_string_or_missing_witness :
  exists wb ws,
    Book summary_detail = Book wb /\ ("Detail", ws) ∈ wb
    /\ parse_str [""; "NA"]
         (mkSheet ["code"; "note"] [[Str "007"; Str "NA"]; [Int 8; NaN]])
       = parse_str [""; "NA"] ws
    /\ Forall (Forall (fun c => c = NaN \/ is_str c = true))
         [[Str "007"; NaN]; [Str "8"; NaN]]
    /\ forall i j raw,
         j < length (ws_header ws) ->
         ws_body ws !! i = Some raw ->
         if reads_as_na [""; "NA"] (nth j raw NaN)
         then nth j (nth i [[Str "007"; NaN]; [Str "8"; NaN]] []) NaN = NaN
         else is_str (nth j (nth i [[Str "007"; NaN]; [Str "8"; NaN]] []) NaN) = true.
Proof.
  apply (loader_cells_string_or_missing
           (world_of (with_file "book.xlsx" (Book summary_detail) no_files))
           "book.xlsx" st0 (mkRuntime [] ["book.xlsx"] 0)
           (parse_all [""; "NA"] summary_detail) "Detail"
           (parse_str [""; "NA"]
              (mkSheet ["code"; "note"] [[Str "007"; Str "NA"]; [Int 8; NaN]]))).
  - reflexivity.
  - vm_compute. reflexivity.
Defined.


(** ** The frame and its statistics *)

Section Frame.
Implicit Types (df : DataFrame) (vs : list cell).

Lemma column_length df j : length (column df j) = nrows df.
Proof. unfold column, nrows. by rewrite length_map. Qed.

Lemma per_column_lookup {A} (f : list cell -> A) df j :
  per_column f df !! j = (fun c => (fst c, f (column df j))) <$> df_columns df !! j.
Proof. unfold per_column. by rewrite list_lookup_imap. Qed.

Lemma per_column_labels {A} (f : list cell -> A) df :
  map fst (per_column f df) = labels df.
Proof.
  unfold per_column, labels. apply list_eq. intros j.
  rewrite !list_lookup_fmap, list_lookup_imap.
  by destruct (df_columns df !! j).
Qed.

Lemma nth_snd_per_column {A B} (f : list cell -> A) (g : A -> B) df j c (dflt : B) :
  df_columns df !! j = Some c ->
  nth j (map snd (prod_map id g <$> per_column f df)) dflt = g (f (column df j)).
Proof.
  intros Hc. apply nth_lookup_Some.
  rewrite !list_lookup_fmap, per_column_lookup, Hc. reflexivity.
Qed.

(** The row of the data-quality frame at position [j] is made of the
    four statistics of column [j]. *)
Lemma data_quality_lookup df j :
  data_quality df !! j
  = (fun c =>
       (fst c,
        mkDq (dtype_name (snd c))
             (Np.sum (map isna (column df j)))
             (Np.round1 (Np.fmul (Np.mean (map isna (column df j))) 100))
             (length (unique (dropna_values (column df j))))))
    <$> df_columns df !! j.
Proof.
  unfold data_quality, quality_frame, dtypes.
  rewrite list_lookup_imap, list_lookup_fmap.
  destruct (df_columns df !! j) as [[l d]|] eqn:Hc; [|done]. simpl.
  unfold isnull_sum, isnull_mean, isnull.
  rewrite <- (list_fmap_compose _ (prod_map id (fun m => Np.round1 (Np.fmul m 100)))).
  erewrite (nth_snd_per_column (map isna) Np.sum) by done.
  erewrite (nth_snd_per_column (map isna)
              (fun bs => Np.round1 (Np.fmul (Np.mean bs) 100))) by done.
  unfold nunique.
  replace (per_column (fun vs => length (unique (dropna_values vs))) df)
    with (prod_map id id <$> per_column (fun vs => length (unique (dropna_values vs))) df).
  2:{ rewrite <- (list_fmap_id (per_column _ df)) at 2.
      apply list_fmap_ext. by intros _ [??] _. }
  erewrite (nth_snd_per_column _ id) by done. reflexivity.
Qed.

Lemma data_quality_labels df : map fst (data_quality df) = labels df.
Proof.
  apply list_eq. intros j. unfold labels.
  rewrite !list_lookup_fmap, data_quality_lookup.
  by destruct (df_columns df !! j).
Qed.

Lemma sum_isna_dropna vs :
  Np.sum (map isna vs) + length (dropna_values vs) = length vs.
Proof.
  unfold Np.sum, dropna_values. induction vs as [|c vs IH]; [done|].
  simpl. rewrite !filter_cons. destruct c; simpl;
    repeat case_decide; simpl; try done; lia.
Qed.

Lemma sum_le_length (bs : list bool) : Np.sum bs <= length bs.
Proof. unfold Np.sum. apply length_filter. Qed.

End Frame.


(** ** Rounding *)

Section Rounding.
#[local] Open Scope Q_scope.

Lemma round_half_even_comp (p q : Q) :
  p == q -> Np.round_half_even p = Np.round_half_even q.
Proof.
  intros Hpq. unfold Np.round_half_even.
  rewrite (Qfloor_comp _ _ Hpq).
  assert (p - inject_Z (Qfloor q) == q - inject_Z (Qfloor q)) as Hd
    by (by rewrite Hpq).
  by rewrite (Qcompare_comp _ _ Hd (1 # 2) (1 # 2) (Qeq_refl _)).
Qed.

Lemma round1_Q_comp (p q : Q) : p == q -> Np.round1_Q p = Np.round1_Q q.
Proof.
  intros Hpq. unfold Np.round1_Q.
  rewrite (round_half_even_comp (p * 10) (q * 10)); [done|]. by rewrite Hpq.
Qed.

(** Rounding stays between the integers that bound the argument. *)
Lemma round_half_even_bounds (q : Q) (n : Z) :
  0 <= q -> q <= inject_Z n ->
  (0 <= Np.round_half_even q <= n)%Z.
Proof.
  intros H0 Hn.
  assert (0 <= Qfloor q)%Z as Hf0.
  { change 0%Z with (Qfloor (inject_Z 0)). by apply Qfloor_resp_le. }
  assert (Qfloor q <= n)%Z as Hfn.
  { rewrite <- (Qfloor_Z n). by apply Qfloor_resp_le. }
  unfold Np.round_half_even.
  destruct (Qcompare_spec (q - inject_Z (Qfloor q)) (1 # 2)) as [He|Hl|Hg].
  - destruct (Z.even (Qfloor q)); [lia|].
    destruct (decide (Qfloor q = n)) as [Heq|Hne]; [|lia].
    exfalso. rewrite Heq in He.
    assert (q - inject_Z n <= 0) as Hle.
    { apply (Qplus_le_l _ _ (inject_Z n)). ring_simplify. done. }
    rewrite He in Hle. unfold Qle in Hle. simpl in Hle. lia.
  - lia.
  - destruct (decide (Qfloor q = n)) as [Heq|Hne]; [|lia].
    exfalso. rewrite Heq in Hg.
    assert (q - inject_Z n <= 0) as Hle.
    { apply (Qplus_le_l _ _ (inject_Z n)). ring_simplify. done. }
    apply (Qlt_not_le _ _ Hg). apply (Qle_trans _ 0); [done|]. unfold Qle. simpl. lia.
Qed.

(** A share [m / n] with [m <= n], as a rounded percentage. *)
Lemma pct_in_range (m : nat) (n : positive) :
  (Z.of_nat m <= Z.pos n)%Z ->
  Np.in_0_100 (Np.round1 (Np.fmul (Np.Fin (Qred (Z.of_nat m # n))) 100)).
Proof.
  intros Hmn. simpl. unfold Np.round1_Q.
  pose proof (round_half_even_bounds
                (Qred (Qred (Z.of_nat m # n) * inject_Z 100) * 10) 1000) as Hb.
  assert (Qred (Qred (Z.of_nat m # n) * inject_Z 100) * 10
          == (Z.of_nat m # n) * 1000) as Heq.
  { rewrite !Qred_correct. change (inject_Z 100) with 100. ring. }
  destruct Hb as [Hlo Hhi].
  - rewrite Heq. unfold Qle, Qmult. simpl. lia.
  - rewrite Heq. unfold Qle, Qmult, inject_Z. simpl. lia.
  - set (z := Np.round_half_even _) in *.
    rewrite !Qred_correct. unfold Qle. simpl. lia.
Qed.

End Rounding.


(** ** The two roundings of a percentage *)

Section Doubles.









End Doubles.


(** ** Duplicate rows *)

Section Duplicates.
Implicit Types (r : list cell) (seen rest : list (list cell)).

Lemma duplicated_from_length seen rest :
  length (duplicated_from seen rest) = length rest.
Proof.
  revert seen. induction rest as [|x rest IH]; intros seen; simpl; [done|].
  by rewrite IH.
Qed.

(** The flag at position [i]: the row is in the initial set or at an
    earlier position. *)
Lemma duplicated_from_lookup seen rest i :
  duplicated_from seen rest !! i = Some true
  <-> exists r, rest !! i = Some r
                /\ (r ∈ seen \/ exists j, j < i /\ rest !! j = Some r).
Proof.
  revert seen i. induction rest as [|x rest IH]; intros seen i; simpl.
  - split; [done|]. by intros (r & H & _).
  - destruct i as [|i]; simpl.
    + split.
      * intros H. inversion H as [Hb]. apply bool_decide_eq_true in Hb.
        exists x. split; [done|]. by left.
      * intros (r & Hr & [Hs | (j & Hj & _)]); [|lia].
        inversion Hr; subst r. f_equal. by apply bool_decide_eq_true.
    + rewrite IH. split.
      * intros (r & Hr & [Hs | (j & Hj & Hjr)]).
        -- exists r. split; [done|].
           apply elem_of_cons in Hs as [-> | Hs]; [|by left].
           right. exists 0. split; [lia|done].
        -- exists r. split; [done|]. right. exists (S j). split; [lia|done].
      * intros (r & Hr & [Hs | (j & Hj & Hjr)]).
        -- exists r. split; [done|]. left. by right.
        -- exists r. split; [done|]. destruct j as [|j]; simpl in Hjr.
           ++ inversion Hjr; subst x. left. left.
           ++ right. exists j. split; [lia|done].
Qed.

Lemma flagged_cons r rest (b : bool) (bs : list bool) :
  flagged (r :: rest) (b :: bs)
  = if b then r :: flagged rest bs else flagged rest bs.
Proof. unfold flagged. simpl. rewrite filter_cons. by destruct b. Qed.

Lemma occurrences_cons r x rest :
  occurrences r (x :: rest)
  = (if decide (x = r) then 1 else 0) + occurrences r rest.
Proof. unfold occurrences. rewrite filter_cons. by case_decide. Qed.

(** Of the copies of [r], all are flagged when [r] was seen before,
    and all but the first otherwise. *)
Lemma flagged_occurrences seen rest r :
  occurrences r (flagged rest (duplicated_from seen rest))
  = if decide (r ∈ seen) then occurrences r rest else occurrences r rest - 1.
Proof.
  revert seen. induction rest as [|x rest IH]; intros seen.
  - simpl. by case_decide.
  - simpl duplicated_from. rewrite flagged_cons, (occurrences_cons r x rest).
    specialize (IH (x :: seen)).
    destruct (decide (x = r)) as [->|Hne].
    + rewrite decide_True in IH by left.
      destruct (decide (r ∈ seen)) as [Hs|Hs].
      * rewrite (bool_decide_eq_true_2 _ Hs).
        rewrite occurrences_cons, decide_True by done. by rewrite IH.
      * rewrite (bool_decide_eq_false_2 _ Hs). rewrite IH. lia.
    + assert (r ∈ x :: seen <-> r ∈ seen) as Hiff.
      { rewrite elem_of_cons. naive_solver. }
      destruct (bool_decide (x ∈ seen)).
      * rewrite occurrences_cons, decide_False by done.
        rewrite IH. simpl. by repeat case_decide; try tauto.
      * rewrite IH. simpl. by repeat case_decide; try tauto.
Qed.

Lemma unique_length_le {A} `{EqDecision A} (xs : list A) :
  length (unique xs) <= length xs.
Proof.
  induction xs as [|x xs IH]; simpl; [done|].
  pose proof (length_filter (fun y => y <> x) (unique xs)). lia.
Qed.

Lemma sum_cons (b : bool) (bs : list bool) :
  Np.sum (b :: bs) = (if b then 1 else 0) + Np.sum bs.
Proof. unfold Np.sum. rewrite filter_cons. by destruct b. Qed.

(** The flags count the rows beyond the first copy of each distinct
    row not seen before. *)
Lemma duplicated_from_sum seen rest :
  Np.sum (duplicated_from seen rest)
  = length rest - length (filter (fun y => y ∉ seen) (unique rest)).
Proof.
  revert seen. induction rest as [|x rest IH]; intros seen; [done|].
  simpl duplicated_from. rewrite sum_cons, IH. cbn [unique].
  pose proof (unique_length_le rest) as Hle.
  rewrite filter_cons, list_filter_filter.
  assert (filter (fun y => (y ∉ seen) /\ y <> x) (unique rest)
          = filter (fun y => y ∉ x :: seen) (unique rest)) as ->.
  { apply list_filter_iff. intros y. rewrite not_elem_of_cons. tauto. }
  pose proof (length_filter (fun y => y ∉ x :: seen) (unique rest)) as Hf.
  destruct (decide (x ∈ seen)) as [Hs|Hs].
  - rewrite (bool_decide_eq_true_2 _ Hs), decide_False by tauto.
    simpl length. lia.
  - rewrite (bool_decide_eq_false_2 _ Hs), decide_True by done.
    simpl length. lia.
Qed.

Lemma filter_unseen_nil rest : filter (fun y => y ∉ []) rest = rest.
Proof.
  induction rest as [|x rest IH]; [done|].
  rewrite filter_cons, decide_True by apply not_elem_of_nil. by rewrite IH.
Qed.

Lemma duplicated_from_none seen rest :
  Np.sum (duplicated_from seen rest) = 0
  <-> NoDup rest /\ forall r, r ∈ rest -> r ∉ seen.
Proof.
  revert seen. induction rest as [|x rest IH]; intros seen.
  - simpl. split; [|done]. intros _. split; [constructor|]. by intros r Hr; inversion Hr.
  - simpl duplicated_from. rewrite sum_cons, NoDup_cons. split.
    + intros H. destruct (bool_decide (x ∈ seen)) eqn:Hb; [lia|].
      apply bool_decide_eq_false in Hb.
      assert (Np.sum (duplicated_from (x :: seen) rest) = 0) as H0 by lia.
      apply IH in H0 as [Hnd Hfresh]. split; [split; [|done]|].
      * intros Hx. apply (Hfresh x Hx). left.
      * intros r Hr. apply elem_of_cons in Hr as [-> | Hr]; [done|].
        intros Hs. apply (Hfresh r Hr). by right.
    + intros [[Hx Hnd] Hfresh].
      rewrite bool_decide_eq_false_2 by (apply Hfresh; left).
      simpl. apply IH. split; [done|].
      intros r Hr. rewrite not_elem_of_cons. split.
      * by intros ->.
      * apply Hfresh. by right.
Qed.

End Duplicates.


(** ** The profiler's metadata and data-quality blocks *)




(** C8, as stated, fails: for a sheet that has a header and no data
    rows the profiler runs to the end and prints a data-quality table
    whose percentages are not-a-number, which is not in [0,100]. *)
Lemma quality_percentage_of_empty_sheet_not_in_range :
  ~ (forall (w : World) (path sheet : string) (dq : list (string * dq_row)),
        Tabulated (tabulate_quality dq "psql")
          ∈ stdout (snd (df_overview w path sheet st0)) ->
        Forall (fun r => Np.in_0_100 (pct_missing (snd r))) dq).
Proof.
  intros Hall.
  pose (w := world_of (with_file "book.xlsx" (Book [("Log", header_only)]) no_files)).
  specialize (Hall w "book.xlsx" "Log" (data_quality (parse_inferred header_only))).
  assert (Forall (fun r => Np.in_0_100 (pct_missing (snd r)))
                 (data_quality (parse_inferred header_only))) as Hr.
  { apply Hall. vm_compute. do 3 right. left. }
  vm_compute in Hr. inversion Hr as [|? ? Hc _]. exact Hc.
Qed.

(** C8, amended.  The data-quality frame has exactly one row per column
    of the sheet, labelled and ordered as the sheet's columns; when the
    sheet has at least one row every percentage lies in [0,100], and
    when it has none every percentage is not-a-number. *)
Theorem quality_rows_and_range (df : DataFrame) :
  map fst (data_quality df) = labels df
  /\ length (data_quality df) = ncols df
  /\ Forall (fun r => match nrows df with
                      | O => pct_missing (snd r) = Np.FNaN
                      | S _ => Np.in_0_100 (pct_missing (snd r))
                      end)
            (data_quality df).
Proof.
  split; [apply data_quality_labels|]. split.
  - rewrite <- (length_map fst), data_quality_labels. unfold labels, ncols.
    by rewrite length_map.
  - apply Forall_lookup. intros j [l row] Hj.
    rewrite data_quality_lookup in Hj.
    destruct (df_columns df !! j) as [[l' d]|]; [|done].
    simpl in Hj. inversion Hj; subst l row; clear Hj. simpl.
    unfold Np.mean. rewrite length_map, column_length.
    destruct (nrows df) as [|n] eqn:Hn; [done|].
    apply pct_in_range.
    pose proof (sum_le_length (map isna (column df j))) as Hle.
    rewrite length_map, column_length, Hn in Hle. unfold Np.sum in Hle. lia.
Qed.

(** C10.  The Duplicate Rows entry of the metadata is the number of
    rows flagged by [duplicated]; a row is flagged exactly when an
    earlier row of the sheet is equal to it in every column, so of the
    [k] copies of a row [k - 1] are flagged; the total is the number of
    rows less the number of distinct rows, and it is 0 exactly when no
    row is repeated. *)
Theorem duplicate_rows_counts_later_copies
    (w : World) (sheet_name : string) (df : DataFrame) :
  dict_get "Duplicate Rows" (metadata w sheet_name df)
  = Some (PInt (Z.of_nat (Np.sum (duplicated df))))
  /\ (forall i, duplicated df !! i = Some true
                <-> exists j r, j < i /\ rows df !! j = Some r /\ rows df !! i = Some r)
  /\ (forall r, occurrences r (flagged (rows df) (duplicated df))
                = occurrences r (rows df) - 1)
  /\ Np.sum (duplicated df) = nrows df - length (unique (rows df))
  /\ (Np.sum (duplicated df) = 0 <-> NoDup (rows df)).
Proof.
  split; [reflexivity|]. unfold duplicated. split; [|split; [|split]].
  - intros i. rewrite duplicated_from_lookup. split.
    + intros (r & Hr & [Hs | (j & Hj & Hjr)]); [by apply elem_of_nil in Hs|].
      by exists j, r.
    + intros (j & r & Hj & Hjr & Hr). exists r. split; [done|]. right. by exists j.
  - intros r. rewrite flagged_occurrences. by rewrite decide_False by apply not_elem_of_nil.
  - rewrite duplicated_from_sum, filter_unseen_nil.
    unfold rows, nrows. by rewrite length_map.
  - rewrite duplicated_from_none. split; [by intros [H _]|].
    intros H. split; [done|]. intros r _. apply not_elem_of_nil.
Qed.


(** ** The profiler as a whole *)

Section Overview.
Variable w : World.

Lemma dict_get_None {V} (k : string) (d : list (string * V)) :
  k ∉ map fst d -> dict_get k d = None.
Proof.
  induction d as [|[k' v] d IH]; simpl; [done|].
  intros Hk. apply not_elem_of_cons in Hk as [Hne Hk].
  rewrite decide_False by done. by apply IH.
Qed.

Lemma read_excel_run (path name : string) (st : Runtime) :
  read_excel w path name st
  = (match load_workbook path (fs w path) with
     | Ok wb => parse_one name wb
     | Raise e => Raise e
     end,
     mkRuntime (stdout st) (opened st ++ [path]) (rng_pos st)).
Proof.
  unfold read_excel, open_workbook, bind, modify, lift. simpl.
  by destruct (load_workbook path (fs w path)).
Qed.





(** [df_overview] in terms of its computing phase and the prints
    after it. *)
Lemma df_overview_run (path name : string) (st : Runtime) :
  df_overview w path name st
  = match compute_phase w path name st with
    | (Raise e, sc) =>
        (Ok tt, mkRuntime (stdout sc ++ [Line (diagnostic name e)])
                          (opened sc) (rng_pos sc))
    | (Ok (df, sv), sc) =>
        (Ok tt, mkRuntime ((stdout sc ++ report_head w name df)
                           ++ report_tail w name df sv)
                          (opened sc) (rng_pos sc))
    end.
Proof.
  unfold df_overview, try_except, df_overview_body, compute_phase, bind.
  destruct (read_excel w path name st) as [[df|e] st1]; [|done].
  destruct (sample_loop w df (labels df) [] st1) as [[sv|e] st2]; [|done].
  unfold print, modify, lift, report_tail, show, raise, ret. simpl.
  destruct (DataFrame_of_dict sv) as [frame|e]; simpl.
  - destruct (show_error w) as [e|]; simpl; unfold print, modify; simpl;
      repeat rewrite <- app_assoc; reflexivity.
  - repeat rewrite <- app_assoc. reflexivity.
Qed.

End Overview.


(** ** Drawing samples *)

Section Draw.
Variable rnd : nat -> nat.

Lemma draw_length (k n : nat) (xs : list cell) :
  length (draw rnd k n xs) = Nat.min n (length xs).
Proof.
  revert k xs. induction n as [|n IH]; intros k xs; [done|].
  destruct xs as [|x xs]; [done|].
  cbn [draw]. set (i := rnd k mod length (x :: xs)).
  assert (i < length (x :: xs)) as Hi.
  { apply Nat.mod_upper_bound. simpl. lia. }
  cbn [length]. rewrite IH, length_delete.
  - simpl in *. lia.
  - by apply lookup_lt_is_Some.
Qed.

Lemma nth_all_missing (i : nat) (xs : list cell) :
  Forall (fun c => c = NaN) xs -> nth i xs NaN = NaN.
Proof.
  intros Hall. revert i. induction Hall as [|x xs Hx _ IH]; intros [|i]; simpl; auto.
Qed.

Lemma delete_all_missing (i : nat) (xs : list cell) :
  Forall (fun c => c = NaN) xs -> Forall (fun c => c = NaN) (delete i xs).
Proof.
  intros Hall. revert i. induction Hall as [|x xs Hx Hall IH]; intros [|i]; simpl.
  - constructor.
  - constructor.
  - done.
  - constructor; [done|apply IH].
Qed.

(** Drawing from a column of missing values yields missing values. *)
Lemma draw_all_missing (k n : nat) (xs : list cell) :
  Forall (fun c => c = NaN) xs ->
  draw rnd k n xs = replicate (Nat.min n (length xs)) NaN.
Proof.
  revert k xs. induction n as [|n IH]; intros k xs Hall; [done|].
  destruct xs as [|x xs]; [done|].
  cbn [draw]. set (i := rnd k mod length (x :: xs)).
  assert (i < length (x :: xs)) as Hi.
  { apply Nat.mod_upper_bound. simpl. lia. }
  rewrite (nth_all_missing i _ Hall).
  rewrite IH by by apply delete_all_missing.
  rewrite length_delete by by apply lookup_lt_is_Some.
  cbn [length] in *.
  replace (Nat.min (S n) (S (length xs))) with (S (Nat.min n (S (length xs) - 1)))
    by lia.
  reflexivity.
Qed.

End Draw.

(** What the loop body yields for a column [s]: a text column gives
    [min(3, len(s))] of its non-missing values, or an error when fewer
    are left after [dropna]; any other column gives [min(3, len(s))] of
    all its values. *)
Lemma sample_column_text (w : World) (df : DataFrame) (col : string)
    (s : Series) (st : Runtime) :
  getitem df col = Ok s ->
  s_dtype s = object ->
  fst (sample_column w df col st)
  = if decide (length (dropna_values (s_values s)) < Nat.min 3 (len s))
    then Raise (ValueError
                  "Cannot take a larger sample than population when 'replace=False'")
    else Ok (draw (rnd w) (rng_pos st) (Nat.min 3 (len s))
                  (dropna_values (s_values s))).
Proof.
  intros Hg Hobj. unfold sample_column, bind, lift. rewrite Hg.
  rewrite decide_True by done. unfold sample, len, dropna. cbn [s_values].
  by destruct (decide _).
Qed.

Lemma sample_column_other (w : World) (df : DataFrame) (col : string)
    (s : Series) (st : Runtime) :
  getitem df col = Ok s ->
  s_dtype s <> object ->
  exists vs,
    fst (sample_column w df col st) = Ok vs
    /\ length vs = Nat.min 3 (len s)
    /\ vs = draw (rnd w) (rng_pos st) (Nat.min 3 (len s)) (s_values s).
Proof.
  intros Hg Hobj. unfold sample_column, bind, lift. rewrite Hg.
  rewrite decide_False by done. unfold empty.
  destruct (Nat.eqb_spec (len s) 0) as [Hlen|Hlen]; cbn [negb].
  - exists []. rewrite Hlen. by repeat split.
  - unfold sample. rewrite decide_False by lia. cbn [fst].
    eexists. split; [done|]. split; [|done].
    rewrite draw_length. unfold len. lia.
Qed.

(** On a console that takes every text, [df_overview_on] is
    [df_overview]. *)
Lemma df_overview_on_open (w : World) (path sheet : string) (st : Runtime) :
  df_overview_on open_console w path sheet st = df_overview w path sheet st.
Proof. reflexivity. Qed.

(** C1, as stated, fails: the handler's own [print] is not inside the
    [try].  With standard output on a broken pipe and a file that does
    not exist, the error of loading is caught, the diagnostic line
    cannot be written, and that second error reaches the caller. *)
Lemma diagnostic_print_failure_escapes :
  ~ (forall (console : Console) (w : World) (path sheet : string) (st : Runtime),
        exists st', df_overview_on console w path sheet st = (Ok tt, st')).
Proof.
  intros Hall.
  destruct (Hall broken_pipe (world_of no_files) "missing.xlsx" "Q1" st0)
    as [st' Hrun].
  vm_compute in Hrun. discriminate Hrun.
Qed.

(** C1, amended.  No exception raised by the statements inside [try]
    escapes: whatever raises there (loading, the statistics, a print of
    the report, the chart), the handler prints exactly one line, made of
    the sheet name and the text of that exception, after what was
    already printed, and the call returns normally with no value; when
    nothing raises, nothing is added.  This holds as long as the console
    takes the diagnostic line: if that print raises, its error is what
    the caller gets.  In particular, for a sheet name that the workbook
    does not have, the call prints that one line and nothing else. *)
Theorem df_overview_fails_soft
    (console : Console) (w : World) (path sheet : string) (st : Runtime) :
  (forall e sb,
      df_overview_body_on console w path sheet st = (Raise e, sb) ->
      df_overview_on console w path sheet st
      = match console (Line ("Error processing sheet '" +:+ sheet +:+ "': "
                             +:+ exc_str e)) with
        | None =>
            (Ok tt,
             mkRuntime (stdout sb ++ [Line ("Error processing sheet '" +:+ sheet
                                            +:+ "': " +:+ exc_str e)])
                       (opened sb) (rng_pos sb))
        | Some err => (Raise err, sb)
        end)
  /\ (forall sb,
         df_overview_body_on console w path sheet st = (Ok tt, sb) ->
         df_overview_on console w path sheet st = (Ok tt, sb))
  /\ ((forall e, console (Line ("Error processing sheet '" +:+ sheet +:+ "': "
                                +:+ exc_str e)) = None) ->
      exists st', df_overview_on console w path sheet st = (Ok tt, st'))
  /\ (forall wb,
         fs w path = Book wb ->
         sheet ∉ sheet_names wb ->
         console (Line ("Error processing sheet '" +:+ sheet
                        +:+ "': Worksheet named '" +:+ sheet +:+ "' not found"))
         = None ->
         df_overview_on console w path sheet st
         = (Ok tt,
            mkRuntime (stdout st
                       ++ [Line ("Error processing sheet '" +:+ sheet
                                 +:+ "': Worksheet named '" +:+ sheet
                                 +:+ "' not found")])
                      (opened st ++ [path]) (rng_pos st))).
Proof.
  assert (forall e sb,
             df_overview_body_on console w path sheet st = (Raise e, sb) ->
             df_overview_on console w path sheet st
             = match console (Line ("Error processing sheet '" +:+ sheet +:+ "': "
                                    +:+ exc_str e)) with
               | None =>
                   (Ok tt,
                    mkRuntime (stdout sb ++ [Line ("Error processing sheet '" +:+ sheet
                                                   +:+ "': " +:+ exc_str e)])
                              (opened sb) (rng_pos sb))
               | Some err => (Raise err, sb)
               end) as Hraise.
  { intros e sb Hb. unfold df_overview_on, try_except. rewrite Hb.
    unfold print_on, diagnostic.
    by destruct (console (Line _)). }
  split; [exact Hraise|]. split; [|split].
  - intros sb Hb. unfold df_overview_on, try_except. by rewrite Hb.
  - intros Hconsole.
    destruct (df_overview_body_on console w path sheet st) as [[[]|e] sb] eqn:Hb.
    + exists sb. unfold df_overview_on, try_except. by rewrite Hb.
    + rewrite (Hraise e sb eq_refl), Hconsole. by eexists.
  - intros wb Hfs Hno Hconsole.
    assert (df_overview_body_on console w path sheet st
            = (Raise (ValueError ("Worksheet named '" +:+ sheet +:+ "' not found")),
               mkRuntime (stdout st) (opened st ++ [path]) (rng_pos st))) as Hb.
    { unfold df_overview_body_on, bind. rewrite read_excel_run, Hfs. simpl.
      unfold parse_one. by rewrite (dict_get_None sheet wb Hno). }
    rewrite (Hraise _ _ Hb).
    change ("Error processing sheet '" +:+ sheet +:+ "': "
            +:+ exc_str (ValueError ("Worksheet named '" +:+ sheet +:+ "' not found")))
      with ("Error processing sheet '" +:+ sheet
            +:+ "': Worksheet named '" +:+ sheet +:+ "' not found").
    by rewrite Hconsole.
Qed.

Lemma df_overview_fails_soft_witness :
  df_overview_on open_console
                 (world_of (with_file "book.xlsx" (Book summary_detail) no_files))
                 "book.xlsx" "Q9" st0
  = (Ok tt,
     mkRuntime [Line "Error processing sheet 'Q9': Worksheet named 'Q9' not found"]
               ["book.xlsx"] 0).
Proof.
  apply (proj2 (proj2 (proj2
           (df_overview_fails_soft open_console
              (world_of (with_file "book.xlsx" (Book summary_detail) no_files))
              "book.xlsx" "Q9" st0)))
           summary_detail).
  - reflexivity.
  - apply (bool_decide_unpack _). vm_compute. exact I.
  - reflexivity.
Defined.



(** C2: the code at two sheets of three rows in which a column has one
    value and two empty cells.  For the text column the draw of
    [min(3, 3)] values from the one value left by [dropna] raises, and
    the call prints the diagnostic line only; for the number column
    three values are drawn although one is not missing. *)
Theorem sample_of_sparse_column :
  (forall w st,
      fst (sample_column w (parse_inferred sparse_text) "name" st)
      = Raise (ValueError
                 "Cannot take a larger sample than population when 'replace=False'"))
  /\ length (dropna_values (column (parse_inferred sparse_text) 1)) = 1
  /\ (forall w st,
        exists vs,
          fst (sample_column w (parse_inferred sparse_number) "amount" st) = Ok vs
          /\ length vs = 3)
  /\ length (dropna_values (column (parse_inferred sparse_number) 1)) = 1
  /\ df_overview (world_of (with_file "orders.xlsx" (Book [("Q1", sparse_text)]) no_files))
                 "orders.xlsx" "Q1" st0
     = (Ok tt,
        mkRuntime
          [Line ("Error processing sheet 'Q1': "
                 +:+ "Cannot take a larger sample than population when 'replace=False'")]
          ["orders.xlsx"] 3).
Proof.
  split; [|split; [|split; [|split]]]; try reflexivity.
  intros w st. eexists. split; [reflexivity|].
  by rewrite draw_length.
Qed.

(** C3: the code at sheet Q1 of orders.xlsx (100 rows, 5 columns, column
    note empty throughout).  The data-quality row of the column reads
    100 missing, 100.0 percent, 0 distinct values; the column is typed
    [float64] and is not of length zero, so three values are drawn from
    it, all of them the missing-value marker. *)
Theorem empty_column_sample_holds_missing_values :
  nrows (parse_inferred orders_q1) = 100
  /\ ncols (parse_inferred orders_q1) = 5
  /\ data_quality (parse_inferred orders_q1) !! 4
     = Some ("note", mkDq "float64" 100 (Np.Fin 100) 0)
  /\ (forall w st,
        fst (sample_column w (parse_inferred orders_q1) "note" st)
        = Ok [NaN; NaN; NaN])
  /\ exists frame,
       Tabulated (tabulate_frame frame "psql")
         ∈ stdout (snd (df_overview
                          (world_of (with_file "orders.xlsx" (Book [("Q1", orders_q1)])
                                               no_files))
                          "orders.xlsx" "Q1" st0))
       /\ dict_get "note" frame = Some [NaN; NaN; NaN].
Proof.
  split; [by vm_compute|]. split; [by vm_compute|]. split; [by vm_compute|]. split.
  - intros w st.
    assert (getitem (parse_inferred orders_q1) "note"
            = Ok (mkSeries float64 (replicate 100 NaN))) as Hg by (by vm_compute).
    unfold sample_column, bind, lift. rewrite Hg.
    rewrite decide_False by done. unfold empty, len. cbn [s_values].
    rewrite !length_replicate. cbn [Nat.eqb negb Nat.min].
    unfold sample, len. cbn [s_values]. rewrite length_replicate.
    rewrite decide_False by lia. cbn [fst].
    rewrite draw_all_missing by (apply Forall_replicate; reflexivity).
    by rewrite length_replicate.
  - eexists. split.
    + vm_compute. do 5 right. left.
    + by vm_compute.
Qed.


(** ** The loader and the profiler on one workbook *)

Section LoaderAndProfiler.
Implicit Types (w : World) (ws : Worksheet) (wb : Workbook).

Lemma reads_as_na_default (c : cell) :
reads_as_na [""; "NA"] c = reads_as_na [] c.
Proof.
destruct c as [|s| | | |]; try reflexivity. unfold reads_as_na.
apply bool_decide_ext. rewrite !elem_of_app. split.
- intros [H|H]; [by left|]. left.
  apply elem_of_cons in H as [->|H]; [by apply (bool_decide_unpack _)|].
  apply list_elem_of_singleton in H as ->. by apply (bool_decide_unpack _).
- intros [H|H]; [by left|]. by apply elem_of_nil in H.
Qed.

Lemma sanitize_objects_default (memo vs : list cell) :
sanitize_objects [""; "NA"] memo vs = sanitize_objects [] memo vs.
Proof.
revert memo. induction vs as [|v vs IH]; intros memo; [done|].
cbn [sanitize_objects]. rewrite reads_as_na_default.
destruct (reads_as_na [] v); [by rewrite IH|].
destruct (List.find (py_eq v) memo); by rewrite IH.
Qed.

Lemma parse_str_default ws : parse_str [""; "NA"] ws = parse_str [] ws.
Proof.
unfold parse_str, str_column. f_equal. apply list_fmap_ext. intros _ i _.
apply list_fmap_ext. intros _ j _. by rewrite sanitize_objects_default.
Qed.

Lemma parse_all_default wb : parse_all [""; "NA"] wb = parse_all [] wb.
Proof.
unfold parse_all. generalize (∅ : gmap string DataFrame).
induction wb as [|s wb IH]; intros d; [done|]. simpl.
unfold put_sheet at 2 4. rewrite parse_str_default. apply IH.
Qed.

Lemma dict_get_Some_iff {V} (k : string) (d : list (string * V)) :
is_Some (dict_get k d) <-> k ∈ map fst d.
Proof.
induction d as [|[k' v] d IH]; simpl.
- split; [by intros [? ?]|]. by intros H%elem_of_nil.
- case_decide as Hk.
  + split; [|by eauto]. intros _. subst. left.
  + rewrite IH, elem_of_cons. naive_solver.
Qed.

Lemma inferred_dtypes_length ws :
length (inferred_dtypes ws) = length (ws_header ws).
Proof. unfold inferred_dtypes. by rewrite length_imap. Qed.

Lemma parse_inferred_labels ws : labels (parse_inferred ws) = ws_header ws.
Proof.
unfold labels, parse_inferred. simpl.
apply fst_zip. rewrite inferred_dtypes_length. lia.
Qed.

Lemma isna_coerce (d : dtype) (c : cell) : isna (coerce d c) = isna c.
Proof. by destruct d, c. Qed.

Lemma isna_mask_na (na : list string) (c : cell) :
isna (mask_na na c) = reads_as_na na c.
Proof.
unfold mask_na. destruct (reads_as_na na c) eqn:H; [done|].
destruct c; simpl in *; congruence.
Qed.

Lemma inferred_column ws (j : nat) (d : dtype) :
inferred_dtypes ws !! j = Some d ->
column (parse_inferred ws) j
= map (fun r => coerce d (mask_na [] (nth j r NaN))) (ws_body ws).
Proof.
intros Hd. unfold column, parse_inferred. simpl.
rewrite <- list_fmap_compose. apply list_fmap_ext. intros _ r _. simpl.
apply nth_lookup_Some. by rewrite list_lookup_imap, Hd.
Qed.

(** Column [j] of the two readings of a sheet has its missing values
  at the same rows. *)
Lemma missing_mask_agrees ws (j : nat) :
j < length (ws_header ws) ->
map isna (column (parse_inferred ws) j)
= map isna (column (parse_str [""; "NA"] ws) j).
Proof.
intros Hj.
assert (is_Some (inferred_dtypes ws !! j)) as [d Hd].
{ apply lookup_lt_is_Some. by rewrite inferred_dtypes_length. }
rewrite (inferred_column ws j d Hd), (column_parse_str _ ws j Hj).
apply list_eq. intros i. rewrite !list_lookup_fmap.
destruct (ws_body ws !! i) as [raw|] eqn:Hi; simpl.
- destruct (str_column_lookup [""; "NA"] ws i j raw Hi) as (c & -> & Hna & _).
  simpl. by rewrite isna_coerce, isna_mask_na, Hna, reads_as_na_default.
- rewrite (proj2 (lookup_ge_None _ _)); [done|].
  rewrite str_column_length. by apply lookup_ge_None.
Qed.

End LoaderAndProfiler.



(** X2.  The profiler's loading step finds a sheet exactly when the
    sheet name is a key of the dict the loader returns for the same
    path. *)
Theorem profile_finds_sheet_iff_loader_key
    (w : World) (path sheet : string) (st st1 st1' : Runtime)
    (d : gmap string DataFrame) :
  read_all_excel_sheets w path st1 = (Ok d, st1') ->
  is_Some (d !! sheet) <-> exists df, fst (read_excel w path sheet st) = Ok df.
Proof.
  intros Hload. apply read_all_excel_sheets_inv in Hload as (wb & Hfs & ->).
  rewrite read_excel_run, Hfs. simpl. unfold parse_one.
  rewrite <- elem_of_dom. unfold parse_all.
  rewrite parse_all_dom_from, dom_empty_L, union_empty_l_L, elem_of_list_to_set.
  unfold sheet_names. rewrite <- dict_get_Some_iff.
  destruct (dict_get sheet wb) as [ws|]; split.
  - intros _. by eexists.
  - intros _. by eexists.
  - by intros [? ?].
  - by intros [? ?].
Qed.

Lemma profile_finds_sheet_iff_loader_key_witness :
  is_Some (parse_all [""; "NA"] summary_detail !! "Detail")
  <-> exists df,
        fst (read_excel (world_of (with_file "book.xlsx" (Book summary_detail) no_files))
                        "book.xlsx" "Detail" st0) = Ok df.
Proof.
  apply (profile_finds_sheet_iff_loader_key
           (world_of (with_file "book.xlsx" (Book summary_detail) no_files))
           "book.xlsx" "Detail" st0 st0 (mkRuntime [] ["book.xlsx"] 0)).
  reflexivity.
Defined.

(** X3.  The [na_values] the loader passes add nothing: the empty
    string and NA are among the strings pandas reads as missing anyway,
    so the loader returns what the same call without [na_values]
    returns. *)
Theorem loader_na_values_redundant (w : World) (path : string) (st : Runtime) :
  read_all_excel_sheets w path st = read_excel_all_str w path [] st.
Proof.
  unfold read_all_excel_sheets, read_excel_all_str, bind, ret.
  destruct (open_workbook w path st) as [[wb|e] st']; [|done].
  by rewrite parse_all_default.
Qed.

(** X4.  For every column of a sheet, the Missing Values count of the
    profiler is the number of missing cells in the same column of the
    table the loader builds from that sheet, and the row carries that
    column's label. *)
Theorem missing_count_matches_loader
    (ws : Worksheet) (j : nat) (label : string) (row : dq_row) :
  data_quality (parse_inferred ws) !! j = Some (label, row) ->
  labels (parse_str [""; "NA"] ws) !! j = Some label
  /\ missing_values row
     = Np.sum (map isna (column (parse_str [""; "NA"] ws) j)).
Proof.
  intros Hrow.
  assert (labels (parse_inferred ws) !! j = Some label) as Hl.
  { rewrite <- data_quality_labels, list_lookup_fmap, Hrow. done. }
  rewrite parse_inferred_labels in Hl.
  split.
  - unfold labels, parse_str. simpl. rewrite <- list_fmap_compose.
    rewrite list_lookup_fmap, Hl. done.
  - rewrite data_quality_lookup in Hrow.
    destruct (df_columns (parse_inferred ws) !! j) as [[l d]|]; [|done].
    simpl in Hrow. inversion Hrow; subst. simpl.
    rewrite missing_mask_agrees; [done|]. by eapply lookup_lt_Some.
Qed.

Lemma missing_count_matches_loader_witness :
  labels (parse_str [""; "NA"] sparse_number) !! 1 = Some "amount"
  /\ 2 = Np.sum (map isna (column (parse_str [""; "NA"] sparse_number) 1)).
Proof.
  apply (missing_count_matches_loader sparse_number 1 "amount"
           (mkDq "float64" 2 (Np.Fin (Qred (667 # 10))) 1)).
  reflexivity.
Defined.


(** ** The sample-values block *)

Section Samples.
Variable w : World.
Implicit Types (df : DataFrame) (cols : list string) (s : Series).

Lemma draw_submseteq (rnd : nat -> nat) (k n : nat) (xs : list cell) :
draw rnd k n xs ⊆+ xs.
Proof.
revert k xs. induction n as [|n IH]; intros k xs.
- apply submseteq_nil_l.
- destruct xs as [|x xs]; [done|].
  cbn [draw]. set (i := rnd k mod length (x :: xs)).
  assert (i < length (x :: xs)) as Hi.
  { apply Nat.mod_upper_bound. simpl. lia. }
  destruct (lookup_lt_is_Some_2 _ _ Hi) as [y Hy].
  rewrite (nth_lookup_Some _ _ NaN y Hy).
  rewrite (delete_Permutation (x :: xs) i y Hy) at 2.
  apply submseteq_skip, IH.
Qed.

Lemma index_of_Some (l : string) (ls : list string) :
l ∈ ls -> exists j, index_of l ls = Some j /\ ls !! j = Some l.
Proof.
induction ls as [|l' ls IH]; intros Hin; [by apply elem_of_nil in Hin|].
simpl. case_decide as Hl.
- exists 0. by subst.
- apply elem_of_cons in Hin as [->|Hin]; [done|].
  destruct (IH Hin) as (j & -> & Hj). by exists (S j).
Qed.


Lemma getitem_label df (col : string) :
col ∈ labels df -> exists s, getitem df col = Ok s /\ len s = nrows df.
Proof.
intros Hin. destruct (index_of_Some _ _ Hin) as (j & Hi & _).
unfold getitem. rewrite Hi. eexists. split; [done|].
unfold len. simpl. apply column_length.
Qed.


(** The loop body on a column of the frame: either the draw is served
  and yields [min(3, rows)] values, or it raises the sampling
  error. *)
Lemma sample_column_cases df (col : string) (st : Runtime) :
col ∈ labels df ->
match fst (sample_column w df col st) with
| Ok vs => col_ok df col /\ length vs = Nat.min 3 (nrows df)
| Raise e => e = sample_too_large /\ ~ col_ok df col
end.
Proof.
intros Hin. destruct (getitem_label df col Hin) as (s & Hg & Hlen).
destruct (decide (s_dtype s = object)) as [Hobj|Hobj].
- rewrite (sample_column_text w df col s st Hg Hobj).
  case_decide as Hlt.
  + split; [done|]. intros Hok. specialize (Hok s Hg Hobj). lia.
  + split.
    * intros s' Hg' _. rewrite Hg in Hg'. inversion Hg'; subst s'. lia.
    * rewrite draw_length, Hlen. lia.
- destruct (sample_column_other w df col s st Hg Hobj) as (vs & -> & Hl & _).
  split; [|by rewrite Hl, Hlen].
  intros s' Hg' Hobj'. rewrite Hg in Hg'. by inversion Hg'; subst s'.
Qed.

Lemma dict_set_fresh {V} (k : string) (v : V) (d : list (string * V)) :
k ∉ map fst d -> dict_set k v d = d ++ [(k, v)].
Proof.
induction d as [|[k' v'] d IH]; simpl; [done|].
intros Hk. apply not_elem_of_cons in Hk as [Hne Hk].
rewrite decide_False by done. by rewrite IH.
Qed.

(** The loop, started with the entries of the columns already visited:
  when it ends normally every column of [cols] could be served, the
  dict has gained the columns of [cols] in order, and every entry has
  [min(3, rows)] values. *)
Lemma sample_loop_ok df cols (sv0 sv : list (string * list cell)) (st st' : Runtime) :
NoDup (map fst sv0 ++ cols) ->
(forall c, c ∈ cols -> c ∈ labels df) ->
Forall (fun e => length (snd e) = Nat.min 3 (nrows df)) sv0 ->
sample_loop w df cols sv0 st = (Ok sv, st') ->
map fst sv = map fst sv0 ++ cols
/\ Forall (fun e => length (snd e) = Nat.min 3 (nrows df)) sv
/\ Forall (col_ok df) cols.
Proof.
revert sv0 st. induction cols as [|col cols IH]; intros sv0 st Hnd Hin Hlen Hrun.
- simpl in Hrun. inversion Hrun; subst. by rewrite app_nil_r.
- simpl in Hrun. unfold bind in Hrun.
  pose proof (sample_column_cases df col st (Hin col ltac:(left))) as Hc.
  destruct (sample_column w df col st) as [[v|e] st1]; simpl in Hc; [|done].
  destruct Hc as [Hok Hv].
  apply NoDup_app in Hnd as (Hnd0 & Hdis & Hndc).
  apply NoDup_cons in Hndc as [Hcol Hndc].
  assert (col ∉ map fst sv0) as Hfresh.
  { intros H. apply (Hdis col H). left. }
  rewrite (dict_set_fresh col v sv0 Hfresh) in Hrun.
  apply IH in Hrun as (Hkeys & Hall & Hoks).
  + split; [|split; [done|by constructor]].
    rewrite Hkeys, map_app. simpl. by rewrite <- app_assoc.
  + rewrite map_app. simpl. rewrite <- app_assoc. simpl.
    apply NoDup_app. split; [done|]. split; [|by constructor].
    intros x Hx Hx'. by apply (Hdis x Hx).
  + intros c Hc. apply Hin. by right.
  + apply Forall_app. split; [done|]. by constructor.
Qed.

Lemma sample_loop_err df cols (sv0 : list (string * list cell))
  (st st' : Runtime) (e : Exception) :
(forall c, c ∈ cols -> c ∈ labels df) ->
sample_loop w df cols sv0 st = (Raise e, st') ->
e = sample_too_large /\ ~ Forall (col_ok df) cols.
Proof.
revert sv0 st. induction cols as [|col cols IH]; intros sv0 st Hin Hrun.
- done.
- simpl in Hrun. unfold bind in Hrun.
  pose proof (sample_column_cases df col st (Hin col ltac:(left))) as Hc.
  destruct (sample_column w df col st) as [[v|e'] st1]; simpl in Hc.
  + apply IH in Hrun as [-> Hno]; [|intros c Hc'; apply Hin; by right].
    split; [done|]. intros Hall. apply Hno. by inversion Hall.
  + inversion Hrun; subst. destruct Hc as [-> Hno]. split; [done|].
    intros Hall. apply Hno. by inversion Hall.
Qed.


Lemma DataFrame_of_dict_same_length (m : nat) (sv : list (string * list cell)) :
Forall (fun e => length (snd e) = m) sv -> DataFrame_of_dict sv = Ok sv.
Proof.
intros Hall. destruct sv as [|[k v] sv]; [done|]. simpl.
apply Forall_cons in Hall as [Hv Hall]. simpl in Hv.
rewrite (proj2 (forallb_forall _ _)); [done|].
intros e He. apply list_elem_of_In in He.
rewrite Forall_forall in Hall. rewrite (Hall e He), Hv. apply Nat.eqb_refl.
Qed.

End Samples.


(** X6.  When the loop over the columns ends normally (the labels of a
    frame are distinct), the dict of samples has the columns of the
    sheet as its keys, in the sheet's order, every entry holds
    [min(3, rows)] values, and so the frame built from it for printing
    never raises. *)
Theorem sample_table_is_rectangular
    (w : World) (df : DataFrame) (st st' : Runtime)
    (sample_values : list (string * list cell)) :
  NoDup (labels df) ->
  sample_loop w df (labels df) [] st = (Ok sample_values, st') ->
  map fst sample_values = labels df
  /\ Forall (fun e => length (snd e) = Nat.min 3 (nrows df)) sample_values
  /\ DataFrame_of_dict sample_values = Ok sample_values.
Proof.
  intros Hnd Hrun.
  apply (sample_loop_ok w df (labels df) []) in Hrun as (Hkeys & Hall & _);
    [|done|done|constructor].
  split; [done|]. split; [done|].
  by eapply DataFrame_of_dict_same_length.
Qed.

Lemma sample_table_is_rectangular_witness :
  map fst [("id", [Int 1; Int 3; Int 2]); ("amount", [Float "10.0"; NaN; NaN])]
  = labels (parse_inferred sparse_number)
  /\ Forall (fun e : string * list cell =>
               length (snd e) = Nat.min 3 (nrows (parse_inferred sparse_number)))
            [("id", [Int 1; Int 3; Int 2]); ("amount", [Float "10.0"; NaN; NaN])]
  /\ DataFrame_of_dict
       [("id", [Int 1; Int 3; Int 2]); ("amount", [Float "10.0"; NaN; NaN])]
     = Ok [("id", [Int 1; Int 3; Int 2]); ("amount", [Float "10.0"; NaN; NaN])].
Proof.
  apply (sample_table_is_rectangular
           (world_of no_files) (parse_inferred sparse_number)
           st0 (mkRuntime [] [] 6)).
  - apply (bool_decide_unpack _). vm_compute. exact I.
  - reflexivity.
Defined.

(** [df_overview] is loading followed by [df_overview_loaded]. *)
Lemma df_overview_after_loading
    (w : World) (path sheet : string) (st st1 : Runtime) (df : DataFrame) :
  read_excel w path sheet st = (Ok df, st1) ->
  df_overview w path sheet st = df_overview_loaded w sheet df st1.
Proof.
  intros Hload. unfold df_overview, df_overview_loaded, try_except.
  unfold df_overview_body, bind at 1. by rewrite Hload.
Qed.




(** X8.  The values the loop body draws for a column are taken from
    that column without replacement: as a multiset they are contained
    in [df[col]], there are [min(3, len)] of them, and for a text column
    none of them is missing. *)
Theorem sample_without_replacement
    (w : World) (df : DataFrame) (col : string) (s : Series)
    (st : Runtime) (vs : list cell) :
  getitem df col = Ok s ->
  fst (sample_column w df col st) = Ok vs ->
  vs ⊆+ s_values s
  /\ length vs = Nat.min 3 (len s)
  /\ (s_dtype s = object -> Forall (fun c => isna c = false) vs).
Proof.
  intros Hg Hrun.
  destruct (decide (s_dtype s = object)) as [Hobj|Hobj].
  - rewrite (sample_column_text w df col s st Hg Hobj) in Hrun.
    case_decide as Hlt; [done|].
    assert (vs = draw (rnd w) (rng_pos st) (Nat.min 3 (len s))
                      (dropna_values (s_values s))) as -> by congruence.
    clear Hrun.
    pose proof (draw_submseteq (rnd w) (rng_pos st) (Nat.min 3 (len s))
                  (dropna_values (s_values s))) as Hsub.
    split; [|split].
    + etrans; [exact Hsub|]. apply sublist_submseteq, sublist_filter.
    + rewrite draw_length. lia.
    + intros _. apply Forall_forall. intros c Hc.
      apply (elem_of_submseteq _ _ _ Hc) in Hsub.
      unfold dropna_values in Hsub. by apply list_elem_of_filter in Hsub as [? _].
  - destruct (sample_column_other w df col s st Hg Hobj) as (vs' & Hrun' & Hl & Hvs).
    rewrite Hrun' in Hrun. assert (vs = vs') as -> by congruence. subst vs'.
    split; [apply draw_submseteq|]. split; [done|]. by intros Hobj'.
Qed.

Lemma sample_without_replacement_witness :
  [Float "10.0"; NaN; NaN] ⊆+ [Float "10.0"; NaN; NaN]
  /\ length [Float "10.0"; NaN; NaN] = Nat.min 3 3
  /\ (float64 = object -> Forall (fun c => isna c = false) [Float "10.0"; NaN; NaN]).
Proof.
  apply (sample_without_replacement
           (world_of no_files) (parse_inferred sparse_number) "amount"
           (mkSeries float64 [Float "10.0"; NaN; NaN]) st0).
  - reflexivity.
  - reflexivity.
Defined.


(** ** Bounds on the printed statistics *)

Section Bounds.
#[local] Open Scope Q_scope.

(** Rounding moves a number by at most one half. *)
Lemma round_half_even_error (q : Q) :
Qabs (inject_Z (Np.round_half_even q) - q) <= 1 # 2.
Proof.
apply Qabs_Qle_condition.
pose proof (Qfloor_le q) as Hlo. pose proof (Qlt_floor q) as Hhi.
rewrite inject_Z_plus in Hhi. change (inject_Z 1) with 1 in Hhi.
unfold Np.round_half_even.
destruct (Qcompare_spec (q - inject_Z (Qfloor q)) (1 # 2)) as [He|Hl|Hg].
- destruct (Z.even (Qfloor q)).
  + split; lra.
  + rewrite inject_Z_plus. change (inject_Z 1) with 1. split; lra.
- split; lra.
- rewrite inject_Z_plus. change (inject_Z 1) with 1. split; lra.
Qed.

End Bounds.

Section Distinct.
Context {A : Type} `{EqDecision A}.
Implicit Types (xs : list A).

Lemma elem_of_unique xs (x : A) : x ∈ unique xs <-> x ∈ xs.
Proof.
induction xs as [|y xs IH]; simpl; [done|].
rewrite !elem_of_cons, list_elem_of_filter, IH.
destruct (decide (x = y)); naive_solver.
Qed.

Lemma NoDup_unique xs : NoDup (unique xs).
Proof.
induction xs as [|y xs IH]; simpl; [constructor|].
apply NoDup_cons. split.
- rewrite list_elem_of_filter. naive_solver.
- by apply NoDup_filter.
Qed.

Lemma unique_nil_iff xs : unique xs = [] <-> xs = [].
Proof. by destruct xs. Qed.

(** The number of distinct values does not depend on the order. *)
Lemma unique_length_Permutation xs ys :
xs ≡ₚ ys -> length (unique xs) = length (unique ys).
Proof.
intros Hp. apply Permutation_length, NoDup_Permutation; try apply NoDup_unique.
intros x. by rewrite !elem_of_unique, Hp.
Qed.

End Distinct.


(** X10.  In every row of the data-quality frame the missing count is
    at most the row count of the sheet, the distinct count is at most
    the number of non-missing cells, and the distinct count is 0 exactly
    when every cell of the column is missing. *)
Theorem quality_row_invariants
    (df : DataFrame) (j : nat) (label : string) (row : dq_row) :
  data_quality df !! j = Some (label, row) ->
  missing_values row <= nrows df
  /\ unique_values row <= nrows df - missing_values row
  /\ (unique_values row = 0 <-> missing_values row = nrows df).
Proof.
  rewrite data_quality_lookup.
  destruct (df_columns df !! j) as [[l d]|]; [|done]. simpl.
  intros H. inversion H; subst label row; clear H. simpl.
  pose proof (sum_isna_dropna (column df j)) as Hsum.
  rewrite column_length in Hsum.
  pose proof (unique_length_le (dropna_values (column df j))) as Hle.
  split; [lia|]. split; [lia|].
  rewrite length_zero_iff_nil, unique_nil_iff, <- length_zero_iff_nil. lia.
Qed.

Lemma quality_row_invariants_witness :
  2 <= 3 /\ 1 <= 3 - 2 /\ (1 = 0 <-> 2 = 3).
Proof.
  apply (quality_row_invariants (parse_inferred sparse_number) 1 "amount"
           (mkDq "float64" 2 (Np.Fin (Qred (667 # 10))) 1)).
  reflexivity.
Defined.

(** X11.  For a sheet with at least one row, a column without missing
    cells is reported at 0.0 percent and a column with nothing but
    missing cells at 100.0 percent. *)
Theorem pct_missing_extremes
    (df : DataFrame) (j : nat) (label : string) (row : dq_row) :
  data_quality df !! j = Some (label, row) ->
  nrows df <> 0 ->
  (missing_values row = 0 -> pct_missing row = Np.Fin 0)
  /\ (missing_values row = nrows df -> pct_missing row = Np.Fin 100).
Proof.
  rewrite data_quality_lookup.
  destruct (df_columns df !! j) as [[l d]|]; [|done]. simpl.
  intros H Hn. inversion H; subst label row; clear H. simpl.
  unfold Np.mean. rewrite length_map, column_length. unfold Np.sum.
  destruct (nrows df) as [|n]; [done|]. simpl Np.round1.
  set (m := length _). split; intros Hm; f_equal.
  - rewrite (round1_Q_comp _ 0); [reflexivity|].
    rewrite !Qred_correct, Hm. unfold Qeq. simpl. lia.
  - rewrite (round1_Q_comp _ 100); [reflexivity|].
    rewrite !Qred_correct, Hm. unfold Qeq, Qmult, inject_Z. simpl. lia.
Qed.

Lemma pct_missing_extremes_witness :
  (0 = 0 -> Np.Fin 0 = Np.Fin 0) /\ (0 = 3 -> Np.Fin 0 = Np.Fin 100).
Proof.
  apply (pct_missing_extremes (parse_inferred sparse_number) 0 "id"
           (mkDq "int64" 0 (Np.Fin 0) 3)).
  - reflexivity.
  - discriminate.
Defined.

(** X12.  For a sheet with at least one row, the Duplicate Rows count
    is less than the row count: the first copy of every row is left
    out. *)
Theorem duplicate_rows_below_rows (df : DataFrame) :
  nrows df <> 0 ->
  Np.sum (duplicated df) < nrows df.
Proof.
  intros Hn. unfold duplicated. rewrite duplicated_from_sum, filter_unseen_nil.
  unfold rows, nrows in *. rewrite length_map.
  destruct (df_rows df) as [|r rs]; [done|]. simpl. lia.
Qed.

Lemma duplicate_rows_below_rows_witness :
  Np.sum (duplicated (mkFrame [("k", object)] [[Str "a"]; [Str "a"]; [Str "a"]])) < 3.
Proof.
  apply (duplicate_rows_below_rows
           (mkFrame [("k", object)] [[Str "a"]; [Str "a"]; [Str "a"]])).
  discriminate.
Defined.

(** X13.  The Duplicate Rows count does not depend on the order of the
    rows: two frames whose rows are a rearrangement of each other have
    the same count. *)
Theorem duplicate_rows_order_independent (df df' : DataFrame) :
  rows df ≡ₚ rows df' ->
  Np.sum (duplicated df) = Np.sum (duplicated df').
Proof.
  intros Hp. unfold duplicated.
  rewrite !duplicated_from_sum, !filter_unseen_nil.
  by rewrite (Permutation_length Hp), (unique_length_Permutation _ _ Hp).
Qed.

Lemma duplicate_rows_order_independent_witness :
  Np.sum (duplicated (mkFrame [("k", object)] [[Str "a"]; [Str "b"]; [Str "a"]]))
  = Np.sum (duplicated (mkFrame [("k", object)] [[Str "a"]; [Str "a"]; [Str "b"]])).
Proof.
  apply (duplicate_rows_order_independent
           (mkFrame [("k", object)] [[Str "a"]; [Str "b"]; [Str "a"]])
           (mkFrame [("k", object)] [[Str "a"]; [Str "a"]; [Str "b"]])).
  apply perm_skip, perm_swap.
Defined.


(** ** File access and the sheet without rows *)

Section Access.
Variable w : World.

Lemma sample_opened (n : nat) (s : Series) (st : Runtime) :
opened (snd (sample w n s st)) = opened st.
Proof. unfold sample. by case_decide. Qed.

Lemma sample_column_opened (df : DataFrame) (col : string) (st : Runtime) :
opened (snd (sample_column w df col st)) = opened st.
Proof.
unfold sample_column, bind, lift.
destruct (getitem df col) as [s|e]; [|done].
case_decide; [apply sample_opened|].
destruct (negb (empty s)); [apply sample_opened|done].
Qed.

Lemma sample_loop_opened (df : DataFrame) (cols : list string)
  (sv : list (string * list cell)) (st : Runtime) :
opened (snd (sample_loop w df cols sv st)) = opened st.
Proof.
revert sv st. induction cols as [|col cols IH]; intros sv st; [done|].
simpl. unfold bind.
pose proof (sample_column_opened df col st) as Hc.
destruct (sample_column w df col st) as [[v|e] st1]; simpl in Hc.
- by rewrite IH.
- done.
Qed.

Lemma compute_phase_opened (path name : string) (st : Runtime) :
opened (snd (compute_phase w path name st)) = opened st ++ [path].
Proof.
unfold compute_phase, bind. rewrite read_excel_run.
destruct (match load_workbook path (fs w path) with
          | Ok wb => parse_one name wb
          | Raise e => Raise e
          end) as [df|e]; [|done].
set (st1 := mkRuntime _ _ _).
pose proof (sample_loop_opened df (labels df) [] st1) as Hl.
by destruct (sample_loop w df (labels df) [] st1) as [[sv|e] st2].
Qed.

End Access.

Lemma inferred_dtypes_no_rows (ws : Worksheet) :
  ws_body ws = [] ->
  inferred_dtypes ws = map (fun _ => object) (ws_header ws).
Proof.
  intros Hb. unfold inferred_dtypes, raw_column. rewrite Hb. simpl.
  apply list_eq. intros j. rewrite list_lookup_imap, list_lookup_fmap.
  by destruct (ws_header ws !! j).
Qed.

Lemma parse_inferred_no_rows (ws : Worksheet) :
  ws_body ws = [] ->
  parse_inferred ws = mkFrame (map (fun l => (l, object)) (ws_header ws)) [].
Proof.
  intros Hb. unfold parse_inferred.
  rewrite (inferred_dtypes_no_rows ws Hb), Hb. simpl. f_equal.
  induction (ws_header ws) as [|l ls IH]; simpl; [done|]. by rewrite IH.
Qed.

Lemma keys_of_empty_entries (ls : list string) (sv : list (string * list cell)) :
  map fst sv = ls ->
  Forall (fun e => length (snd e) = 0) sv ->
  sv = map (fun l => (l, [])) ls.
Proof.
  intros <- Hall. induction Hall as [|[k v] sv Hv _ IH]; simpl; [done|].
  simpl in Hv. apply length_zero_iff_nil in Hv. subst v. by rewrite <- IH.
Qed.

(** X14.  Both functions open the path they are given exactly once,
    whatever the outcome, and no other file; the loader prints
    nothing. *)
Theorem path_opened_once (w : World) (path sheet : string) (st : Runtime) :
  opened (snd (read_all_excel_sheets w path st)) = opened st ++ [path]
  /\ stdout (snd (read_all_excel_sheets w path st)) = stdout st
  /\ opened (snd (df_overview w path sheet st)) = opened st ++ [path].
Proof.
  split; [|split].
  - unfold read_all_excel_sheets, read_excel_all_str, open_workbook.
    unfold bind, modify, lift, ret. simpl.
    by destruct (load_workbook path (fs w path)).
  - unfold read_all_excel_sheets, read_excel_all_str, open_workbook.
    unfold bind, modify, lift, ret. simpl.
    by destruct (load_workbook path (fs w path)).
  - rewrite df_overview_run.
    pose proof (compute_phase_opened w path sheet st) as Ho.
    by destruct (compute_phase w path sheet st) as [[[df sv]|e] sc].
Qed.

(** X15.  A sheet that has a header (of distinct labels) and no data
    rows is profiled without error: the metadata reports 0 rows and 0
    duplicate rows, every column is typed [object] with 0 missing
    cells, a percentage that is not-a-number and 0 distinct values, and
    the sample of every column is empty. *)
Theorem profile_of_sheet_without_rows
    (w : World) (sheet : string) (ws : Worksheet) (st : Runtime) :
  ws_body ws = [] ->
  NoDup (ws_header ws) ->
  let df := parse_inferred ws in
  dict_get "Rows" (metadata w sheet df) = Some (PInt 0)
  /\ dict_get "Duplicate Rows" (metadata w sheet df) = Some (PInt 0)
  /\ data_quality df
     = map (fun l => (l, mkDq "object" 0 Np.FNaN 0)) (ws_header ws)
  /\ exists st',
       sample_loop w df (labels df) [] st
       = (Ok (map (fun l => (l, [])) (ws_header ws)), st').
Proof.
  intros Hb Hnd df.
  assert (df = mkFrame (map (fun l => (l, object)) (ws_header ws)) []) as Hdf
    by (by apply parse_inferred_no_rows).
  assert (labels df = ws_header ws) as Hl by apply parse_inferred_labels.
  assert (nrows df = 0) as Hn by (by rewrite Hdf).
  split; [|split; [|split]].
  - by rewrite Hdf.
  - by rewrite Hdf.
  - apply list_eq. intros j. rewrite data_quality_lookup, Hdf. simpl.
    rewrite !list_lookup_fmap. by destruct (ws_header ws !! j).
  - destruct (sample_loop w df (labels df) [] st) as [[sv|e] st'] eqn:Hrun.
    + exists st'. f_equal. f_equal.
      apply (sample_loop_ok w df (labels df) []) in Hrun as (Hkeys & Hall & _);
        [|by rewrite Hl|done|constructor].
      apply keys_of_empty_entries; [by rewrite <- Hl|].
      by rewrite Hn in Hall.
    + apply sample_loop_err in Hrun as [_ Hno]; [|done].
      destruct Hno. apply Forall_forall. intros col _ s Hg _.
      destruct (decide (col ∈ labels df)) as [Hin|Hin].
      * destruct (getitem_label df col Hin) as (s' & Hg' & Hlen).
        rewrite Hg in Hg'. inversion Hg'; subst s'. rewrite Hlen, Hn. simpl. lia.
      * exfalso. unfold getitem in Hg.
        destruct (index_of col (labels df)) as [j|] eqn:Hi; [|done].
        clear -Hi Hin. revert j Hi. induction (labels df) as [|l ls IH]; intros j Hi.
        -- done.
        -- simpl in Hi. case_decide as Hd; [subst; apply Hin; left|].
           destruct (index_of col ls) as [j'|] eqn:Hi'; [|done].
           apply (IH ltac:(intros H; apply Hin; by right) j' eq_refl).
Qed.

Lemma profile_of_sheet_without_rows_witness :
  dict_get "Rows" (metadata (world_of no_files) "Log" (parse_inferred header_only))
  = Some (PInt 0)
  /\ dict_get "Duplicate Rows"
       (metadata (world_of no_files) "Log" (parse_inferred header_only))
     = Some (PInt 0)
  /\ data_quality (parse_inferred header_only)
     = map (fun l => (l, mkDq "object" 0 Np.FNaN 0)) ["id"; "name"]
  /\ exists st',
       sample_loop (world_of no_files) (parse_inferred header_only)
                   (labels (parse_inferred header_only)) [] st0
       = (Ok (map (fun l => (l, [])) ["id"; "name"]), st').
Proof.
  apply (profile_of_sheet_without_rows (world_of no_files) "Log" header_only st0).
  - reflexivity.
  - apply (bool_decide_unpack _). vm_compute. exact I.
Defined.
